(** * Salus execution engine: scheduler loop, task lifecycle and paging

    A shallow embedding of [ExecutionEngine] and [ResourceContext]
    (executionengine.cpp).  The engine is single-threaded from the point of
    view of the scheduling thread; the embedding follows that thread and the
    callbacks it wires into every task, with the engine state passed
    explicitly and the calls into other components (task cancel, paging
    callbacks, log lines that matter) recorded in a trace.

    Components whose code lives elsewhere (resource monitor, thread pool,
    scheduling policy, the session owner's paging callbacks, the logging
    configuration and [std::sort]) are parameters of the development. *)

From stdpp Require Import gmap strings list.
From Stdlib Require Import ZArith NArith Permutation Sorted.

Set Default Proof Using "Type".
Open Scope Z_scope.

(** ** Data model *)

(** A [PSessionItem] is a shared pointer; the object it points to is
    identified by a number and stored in the engine's session store. *)
Abbreviation SessId := nat (only parsing).

(** Allocation tickets are [uint64_t]; ticket 0 is the invalid ticket. *)
Abbreviation Ticket := N (only parsing).

Inductive DeviceType := CPU | GPU.

Record DeviceSpec := mkDeviceSpec { dev_type : DeviceType; dev_id : nat }.

Inductive ResourceType := COMPUTE | MEMORY | GPU_STREAM | EXCLUSIVE.

Record ResourceTag := mkResourceTag { tag_type : ResourceType; tag_device : DeviceSpec }.

#[global] Instance DeviceType_eq_dec : EqDecision DeviceType.
Proof. solve_decision. Defined.
#[global] Instance DeviceSpec_eq_dec : EqDecision DeviceSpec.
Proof. solve_decision. Defined.
#[global] Instance ResourceType_eq_dec : EqDecision ResourceType.
Proof. solve_decision. Defined.
#[global] Instance ResourceTag_eq_dec : EqDecision ResourceTag.
Proof. solve_decision. Defined.

#[global] Instance DeviceType_countable : Countable DeviceType.
Proof.
  refine (inj_countable' (λ d, match d with CPU => false | GPU => true end)
                         (λ b : bool, if b then GPU else CPU) _).
  by intros [].
Defined.
#[global] Instance DeviceSpec_countable : Countable DeviceSpec.
Proof.
  refine (inj_countable' (λ d, (dev_type d, dev_id d))
                         (λ p, mkDeviceSpec p.1 p.2) _).
  by intros [].
Defined.
#[global] Instance ResourceType_countable : Countable ResourceType.
Proof.
  refine (inj_countable'
            (λ t, match t with
                  | COMPUTE => 0%nat | MEMORY => 1%nat
                  | GPU_STREAM => 2%nat | EXCLUSIVE => 3%nat end)
            (λ n, match n with
                  | O => COMPUTE | 1%nat => MEMORY
                  | 2%nat => GPU_STREAM | _ => EXCLUSIVE end) _).
  by intros [].
Defined.
#[global] Instance ResourceTag_countable : Countable ResourceTag.
Proof.
  refine (inj_countable' (λ t, (tag_type t, tag_device t))
                         (λ p, mkResourceTag p.1 p.2) _).
  by intros [].
Defined.

(** [devices::GPU0] and [devices::CPU0]. *)
Definition GPU0 : DeviceSpec := mkDeviceSpec GPU 0.
Definition CPU0 : DeviceSpec := mkDeviceSpec CPU 0.

(** [Resources]: quantities per resource tag. *)
Abbreviation Resources := (gmap ResourceTag N) (only parsing).

(** [size_t] arithmetic of the 64-bit target. *)
Definition size_max : N := (2 ^ 64)%N.
Definition size_add (a b : N) : N := ((a + b) mod size_max)%N.

(** [ResourceContext]: the members set by its constructors (the reference to
    the monitor is the engine's [m_resMonitor]). *)
Record ResourceContext := mkResourceContext {
  m_spec : DeviceSpec;
  m_ticket : Ticket;
  session : SessId;
  hasStaging : bool
}.

(** Modelled from the spec: [ResourceContext::isGood] is declared in a header
    that is not part of the sources; staging failure is what makes a context
    not good. *)
Definition isGood (rctx : ResourceContext) : bool := hasStaging rctx.

(** [OperationTask] as the engine sees it: an identity, the asynchronous-ness
    flag and the resource context it owns. *)
Record OperationTask := mkOperationTask {
  task_id : nat;
  isAsync : bool;
  resourceContext : ResourceContext
}.

(** [OperationItem]: the weak session reference and the task. *)
Record OperationItem := mkOperationItem {
  sess : SessId;
  op : OperationTask
}.

#[global] Instance ResourceContext_eq_dec : EqDecision ResourceContext.
Proof. solve_decision. Defined.
#[global] Instance OperationTask_eq_dec : EqDecision OperationTask.
Proof. solve_decision. Defined.
#[global] Instance OperationItem_eq_dec : EqDecision OperationItem.
Proof. solve_decision. Defined.

(** Modelled from the spec: [SessionItem] is declared in sessionitem.h, which
    is not part of the sources; these are the members the engine reads and
    writes.  [pagingCb] records whether paging callbacks are registered (the
    callbacks themselves are parameters of the development). *)
Record SessionItem := mkSessionItem {
  sessHandle : string;
  queue : list OperationItem;
  bgQueue : list OperationItem;
  tickets : gset Ticket;
  pagingCb : bool;
  protectOOM : bool;
  forceEvicted : bool;
  lastScheduled : nat;
  totalExecutedOp : N;
  resUsage : gmap ResourceTag N
}.

(** [SessionItem::resourceUsage(tag)]. *)
Definition resourceUsage (s : SessionItem) (tag : ResourceTag) : N :=
  default 0%N (resUsage s !! tag).

(** A session item as the [SessionItem(handle)] constructor leaves it. *)
Definition newSessionItem (h : string) : SessionItem :=
  {| sessHandle := h; queue := []; bgQueue := []; tickets := ∅;
     pagingCb := false; protectOOM := true; forceEvicted := false;
     lastScheduled := 0%nat; totalExecutedOp := 0%N; resUsage := ∅ |}.

(** Field updates. *)
Definition set_queues (q bg : list OperationItem) (s : SessionItem) : SessionItem :=
  {| sessHandle := sessHandle s; queue := q; bgQueue := bg; tickets := tickets s;
     pagingCb := pagingCb s; protectOOM := protectOOM s;
     forceEvicted := forceEvicted s; lastScheduled := lastScheduled s;
     totalExecutedOp := totalExecutedOp s; resUsage := resUsage s |}.
Definition set_tickets (t : gset Ticket) (s : SessionItem) : SessionItem :=
  {| sessHandle := sessHandle s; queue := queue s; bgQueue := bgQueue s; tickets := t;
     pagingCb := pagingCb s; protectOOM := protectOOM s;
     forceEvicted := forceEvicted s; lastScheduled := lastScheduled s;
     totalExecutedOp := totalExecutedOp s; resUsage := resUsage s |}.
Definition set_protectOOM (b : bool) (s : SessionItem) : SessionItem :=
  {| sessHandle := sessHandle s; queue := queue s; bgQueue := bgQueue s;
     tickets := tickets s; pagingCb := pagingCb s; protectOOM := b;
     forceEvicted := forceEvicted s; lastScheduled := lastScheduled s;
     totalExecutedOp := totalExecutedOp s; resUsage := resUsage s |}.
Definition set_forceEvicted (b : bool) (s : SessionItem) : SessionItem :=
  {| sessHandle := sessHandle s; queue := queue s; bgQueue := bgQueue s;
     tickets := tickets s; pagingCb := pagingCb s; protectOOM := protectOOM s;
     forceEvicted := b; lastScheduled := lastScheduled s;
     totalExecutedOp := totalExecutedOp s; resUsage := resUsage s |}.
Definition set_lastScheduled (n : nat) (s : SessionItem) : SessionItem :=
  {| sessHandle := sessHandle s; queue := queue s; bgQueue := bgQueue s;
     tickets := tickets s; pagingCb := pagingCb s; protectOOM := protectOOM s;
     forceEvicted := forceEvicted s; lastScheduled := n;
     totalExecutedOp := totalExecutedOp s; resUsage := resUsage s |}.
Definition set_totalExecutedOp (n : N) (s : SessionItem) : SessionItem :=
  {| sessHandle := sessHandle s; queue := queue s; bgQueue := bgQueue s;
     tickets := tickets s; pagingCb := pagingCb s; protectOOM := protectOOM s;
     forceEvicted := forceEvicted s; lastScheduled := lastScheduled s;
     totalExecutedOp := n; resUsage := resUsage s |}.

(** [SessionChangeSet]; the two list iterators are positions in [m_sessions]. *)
Record SessionChangeSet := mkSessionChangeSet {
  deletedSessions : gset SessId;
  numAddedSessions : nat;
  addedSessionBegin : nat;
  addedSessionEnd : nat
}.

(** The types of the engine members whose classes are defined elsewhere. *)
Record Components := mkComponents {
  ResourceMonitor : Type;
  ThreadPool : Type;
  Scheduler : Type
}.

(** Engine state.  [store] holds the session objects: a weak reference can be
    lifted exactly when the object is still in the store.  [scheduler] and
    [candidates] are the locals of [scheduleLoop] that live across
    iterations.  Modelled from the spec: the two task counters are declared
    in executionengine.h, which is not part of the sources; they are taken as
    signed integers. *)
Record ExecutionEngine (C : Components) := mkExecutionEngine {
  store : gmap SessId SessionItem;
  m_sessions : list SessId;
  m_newSessions : list SessId;
  m_deletedSessions : gset SessId;
  m_resMonitor : ResourceMonitor C;
  m_pool : ThreadPool C;
  m_runningTasks : Z;
  m_noPagingRunningTasks : Z;
  m_shouldExit : bool;
  scheduler : Scheduler C;
  candidates : list SessId
}.
Arguments mkExecutionEngine {C}.
Arguments store {C}.
Arguments m_sessions {C}.
Arguments m_newSessions {C}.
Arguments m_deletedSessions {C}.
Arguments m_resMonitor {C}.
Arguments m_pool {C}.
Arguments m_runningTasks {C}.
Arguments m_noPagingRunningTasks {C}.
Arguments m_shouldExit {C}.
Arguments scheduler {C}.
Arguments candidates {C}.

(** What the engine does to the outside, in program order. *)
Inductive Event :=
| EvCancel (s : SessId) (o : OperationItem)
| EvVolunteer (s : SessId) (t : Ticket) (rctx : ResourceContext)
| EvForceEvicted (s : SessId)
| EvDoPaging (src dst : DeviceSpec)
| EvSingleSessionOOM (s : SessId)
| EvMaybeWaitForAWhile (scheduled : nat)
| EvWaitForWork
| EvNotify
| EvRun (o : OperationItem)
| EvFreeStaging (t : Ticket)
| EvRemoveTicket (s : SessId) (t : Ticket).

#[global] Instance Event_eq_dec : EqDecision Event.
Proof. solve_decision. Defined.

(** Engine field updates. *)
Definition set_store {C} (m : gmap SessId SessionItem) (e : ExecutionEngine C) :=
  mkExecutionEngine m (m_sessions e) (m_newSessions e) (m_deletedSessions e)
    (m_resMonitor e) (m_pool e) (m_runningTasks e) (m_noPagingRunningTasks e)
    (m_shouldExit e) (scheduler e) (candidates e).
Definition set_sessionLists {C} (live new : list SessId) (del : gset SessId)
    (e : ExecutionEngine C) :=
  mkExecutionEngine (store e) live new del
    (m_resMonitor e) (m_pool e) (m_runningTasks e) (m_noPagingRunningTasks e)
    (m_shouldExit e) (scheduler e) (candidates e).
Definition set_resMonitor {C} (r : ResourceMonitor C) (e : ExecutionEngine C) :=
  mkExecutionEngine (store e) (m_sessions e) (m_newSessions e) (m_deletedSessions e)
    r (m_pool e) (m_runningTasks e) (m_noPagingRunningTasks e)
    (m_shouldExit e) (scheduler e) (candidates e).
Definition set_pool {C} (p : ThreadPool C) (e : ExecutionEngine C) :=
  mkExecutionEngine (store e) (m_sessions e) (m_newSessions e) (m_deletedSessions e)
    (m_resMonitor e) p (m_runningTasks e) (m_noPagingRunningTasks e)
    (m_shouldExit e) (scheduler e) (candidates e).
Definition set_runningTasks {C} (n : Z) (e : ExecutionEngine C) :=
  mkExecutionEngine (store e) (m_sessions e) (m_newSessions e) (m_deletedSessions e)
    (m_resMonitor e) (m_pool e) n (m_noPagingRunningTasks e)
    (m_shouldExit e) (scheduler e) (candidates e).
Definition set_noPagingRunningTasks {C} (n : Z) (e : ExecutionEngine C) :=
  mkExecutionEngine (store e) (m_sessions e) (m_newSessions e) (m_deletedSessions e)
    (m_resMonitor e) (m_pool e) (m_runningTasks e) n
    (m_shouldExit e) (scheduler e) (candidates e).

(** The components the engine calls into.  Each operation is a function of
    the state it can touch.
    - [freeStaging], [hasUsage], [preAllocate], [sortVictim]: the
      [ResourceMonitor] methods of those names ([preAllocate] yields the new
      ticket, or nothing on a shortfall).
    - [tryRun]: [ThreadPool::tryRun]; the boolean says whether the closure
      was handed back, that is, the pool was full.
    - [notifyPreSchedulingIteration], [maybeScheduleFrom],
      [insufficientMemory]: the scheduling policy; the first one fills
      [candidates].
    - [volunteer], [forceEvictedCb]: the paging callbacks of a session.
    - [VLOG_IS_ON]: the verbosity test of the logging library.
    - [std_sort]: [std::sort] with the comparator of [doPaging]. *)
Record Collaborators (C : Components) := mkCollaborators {
  freeStaging : Ticket -> ResourceMonitor C -> ResourceMonitor C;
  hasUsage : Ticket -> ResourceMonitor C -> bool;
  preAllocate : Resources -> ResourceMonitor C -> option Ticket * ResourceMonitor C;
  sortVictim : gset Ticket -> ResourceMonitor C -> list (N * Ticket);
  tryRun : OperationItem -> ThreadPool C -> bool * ThreadPool C;
  notifyPreSchedulingIteration :
    SessionChangeSet -> ExecutionEngine C -> ExecutionEngine C;
  maybeScheduleFrom : SessId -> ExecutionEngine C -> (nat * bool) * ExecutionEngine C;
  insufficientMemory : DeviceSpec -> ExecutionEngine C -> bool * ExecutionEngine C;
  volunteer :
    SessId -> Ticket -> ResourceContext -> ExecutionEngine C -> N * ExecutionEngine C;
  forceEvictedCb : SessId -> ExecutionEngine C -> ExecutionEngine C;
  VLOG_IS_ON : nat -> bool;
  std_sort : list (N * SessId) -> list (N * SessId)
}.
Arguments freeStaging {C}.
Arguments hasUsage {C}.
Arguments preAllocate {C}.
Arguments sortVictim {C}.
Arguments tryRun {C}.
Arguments notifyPreSchedulingIteration {C}.
Arguments maybeScheduleFrom {C}.
Arguments insufficientMemory {C}.
Arguments volunteer {C}.
Arguments forceEvictedCb {C}.
Arguments VLOG_IS_ON {C}.
Arguments std_sort {C}.

(** ** The engine monad: state passing with a trace *)

Definition M (C : Components) (A : Type) : Type :=
  ExecutionEngine C -> A * ExecutionEngine C * list Event.

Definition retM {C A} (a : A) : M C A := fun e => (a, e, []).

Definition bindM {C A B} (m : M C A) (k : A -> M C B) : M C B :=
  fun e =>
    let '(a, e1, t1) := m e in
    let '(b, e2, t2) := k a e1 in
    (b, e2, t1 ++ t2).

Definition getM {C} : M C (ExecutionEngine C) := fun e => (e, e, []).
Definition modifyM {C} (f : ExecutionEngine C -> ExecutionEngine C) : M C unit :=
  fun e => (tt, f e, []).
Definition emit {C} (ev : Event) : M C unit := fun e => (tt, e, [ev]).
(** A call into a component that may change the state. *)
Definition callM {C A} (f : ExecutionEngine C -> A * ExecutionEngine C) : M C A :=
  fun e => let '(a, e') := f e in (a, e', []).

Declare Scope engine_scope.
Delimit Scope engine_scope with eng.
Notation "'let*' p ':=' m 'in' k" := (bindM m (fun p => k))
  (at level 10, p pattern, m at level 100, k at level 200) : engine_scope.
Notation "m ;; k" := (bindM m (fun _ => k))
  (at level 100, right associativity) : engine_scope.
Open Scope engine_scope.

(** Result, final state and trace of a run. *)
Definition result {C A} (r : A * ExecutionEngine C * list Event) : A := r.1.1.
Definition final {C A} (r : A * ExecutionEngine C * list Event) : ExecutionEngine C := r.1.2.
Definition trace {C A} (r : A * ExecutionEngine C * list Event) : list Event := r.2.

(** Access to a session object through a strong reference: the object is in
    the store as long as the reference exists; the default is never used on
    such a state. *)
Definition sessionOf {C} (e : ExecutionEngine C) (s : SessId) : SessionItem :=
  default (newSessionItem "") (store e !! s).
Definition updSession {C} (s : SessId) (f : SessionItem -> SessionItem) : M C unit :=
  modifyM (fun e => set_store (alter f s (store e)) e).
(** [weak_ptr::lock]. *)
Definition lock {C} (s : SessId) : M C (option SessionItem) :=
  fun e => (store e !! s, e, []).

(** ** The engine *)

Section Engine.
Context {C : Components} (X : Collaborators C).

(** *** ResourceContext *)

(** [ResourceContext::ResourceContext(PSessionItem, ResourceMonitor &)]; the
    default-constructed [m_spec] is taken to be CPU:0. *)
Definition newResourceContext (item : SessId) : ResourceContext :=
  {| m_spec := mkDeviceSpec CPU 0; m_ticket := 0%N; session := item;
     hasStaging := false |}.

(** [ResourceContext::initializeStaging] (the shortfall written to
    [missing] is only logged and is left out). *)
Definition initializeStaging (rctx : ResourceContext) (spec : DeviceSpec)
    (res : Resources) : M C ResourceContext :=
  let* maybeTicket :=
    callM (fun e =>
             let '(t, r) := preAllocate X res (m_resMonitor e) in
             (t, set_resMonitor r e)) in
  match maybeTicket with
  | Some t =>
      retM {| m_spec := spec; m_ticket := t; session := session rctx;
              hasStaging := true |}
  | None =>
      retM {| m_spec := spec; m_ticket := m_ticket rctx; session := session rctx;
              hasStaging := hasStaging rctx |}
  end.

(** Modelled from the spec: [SessionItem::removeMemoryAllocationTicket] is
    defined in sessionitem.cpp, which is not part of the sources; it takes
    the ticket out of the session's ticket set. *)
Definition removeMemoryAllocationTicket (s : SessId) (t : Ticket) : M C unit :=
  emit (EvRemoveTicket s t) ;;
  updSession s (fun it => set_tickets (tickets it ∖ {[t]}) it).

(** [ResourceContext::removeTicketFromSession]. *)
Definition removeTicketFromSession (rctx : ResourceContext) : M C unit :=
  removeMemoryAllocationTicket (session rctx) (m_ticket rctx).

(** [ResourceContext::releaseStaging]; the context after the call is the
    result. *)
Definition releaseStaging (rctx : ResourceContext) : M C ResourceContext :=
  if negb (hasStaging rctx) then retM rctx
  else
    emit (EvFreeStaging (m_ticket rctx)) ;;
    modifyM (fun e => set_resMonitor (freeStaging X (m_ticket rctx) (m_resMonitor e)) e) ;;
    let rctx' := {| m_spec := m_spec rctx; m_ticket := m_ticket rctx;
                    session := session rctx; hasStaging := false |} in
    let* e := getM in
    (if negb (hasUsage X (m_ticket rctx') (m_resMonitor e))
     then removeTicketFromSession rctx'
     else retM tt) ;;
    retM rctx'.

(** [ResourceContext::~ResourceContext]. *)
Definition destroyResourceContext (rctx : ResourceContext) : M C unit :=
  releaseStaging rctx ;; retM tt.

(** [ExecutionEngine::makeResourceContext]. *)
Definition makeResourceContext (s : SessId) (spec : DeviceSpec) (res : Resources)
    : M C ResourceContext :=
  initializeStaging (newResourceContext s) spec res.

(** *** Task lifecycle *)

(** [ExecutionEngine::pushToSessionQueue]. *)
Definition pushToSessionQueue (opItem : OperationItem) : M C unit :=
  let* item := lock (sess opItem) in
  match item with
  | None => retM tt
  | Some _ =>
      updSession (sess opItem)
        (fun it => set_queues (queue it ++ [opItem]) (bgQueue it) it) ;;
      emit EvNotify
  end.

(** [ExecutionEngine::taskRunning]. *)
Definition taskRunning (opItem : OperationItem) : M C unit :=
  modifyM (fun e => set_runningTasks (m_runningTasks e + 1) e) ;;
  if negb (isAsync (op opItem))
  then modifyM (fun e => set_noPagingRunningTasks (m_noPagingRunningTasks e + 1) e)
  else retM tt.

(** [ExecutionEngine::taskStopped]; the operation item after the call (its
    resource context has been released) is the result. *)
Definition taskStopped (opItem : OperationItem) (failed : bool) : M C OperationItem :=
  let* rctx := releaseStaging (resourceContext (op opItem)) in
  let opItem' :=
    {| sess := sess opItem;
       op := {| task_id := task_id (op opItem); isAsync := isAsync (op opItem);
                resourceContext := rctx |} |} in
  (if negb failed then
     if VLOG_IS_ON X 2 then
       let* item := lock (sess opItem') in
       match item with
       | Some _ =>
           updSession (sess opItem')
             (fun it => set_totalExecutedOp (totalExecutedOp it + 1)%N it)
       | None => retM tt
       end
     else retM tt
   else retM tt) ;;
  modifyM (fun e => set_runningTasks (m_runningTasks e - 1) e) ;;
  (if negb (isAsync (op opItem'))
   then modifyM (fun e => set_noPagingRunningTasks (m_noPagingRunningTasks e - 1) e)
   else retM tt) ;;
  retM opItem'.

(** The [done] callback wired by [submitTask]. *)
Definition cbs_done (opItem : OperationItem) : M C unit :=
  taskStopped opItem false ;; retM tt.

(** The [memFailure] callback wired by [submitTask]. *)
Definition cbs_memFailure (opItem : OperationItem) : M C bool :=
  let* item := lock (sess opItem) in
  match item with
  | None => retM false
  | Some it =>
      if negb (protectOOM it) then retM false
      else
        let* opItem' := taskStopped opItem true in
        pushToSessionQueue opItem' ;;
        retM true
  end.

(** The closure handed to the thread pool by [submitTask]: what a worker
    runs up to the call of [op->run]. *)
Definition poolClosure (opItem : OperationItem) : M C unit :=
  let* item := lock (sess opItem) in
  match item with
  | Some _ => taskRunning opItem ;; emit (EvRun opItem)
  | None => retM tt
  end.

(** [ExecutionEngine::submitTask]; [None] is the null pointer. *)
Definition submitTask (opItem : OperationItem) : M C (option OperationItem) :=
  let* item := lock (sess opItem) in
  match item with
  | None => retM None
  | Some _ =>
      if negb (isGood (resourceContext (op opItem))) then retM (Some opItem)
      else
        let* c :=
          callM (fun e =>
                   let '(c, p) := tryRun X opItem (m_pool e) in
                   (c, set_pool p e)) in
        if negb c then retM None else retM (Some opItem)
  end.

(** *** Paging *)

(** The outcome of a loop of [doPaging] that can leave the function:
    [Some b] is [return b], [None] is falling out of the loop (at its end
    or by [break]). *)

(** The inner loop of step 2: ask [pSess] to page out each victim ticket
    in turn.  [released] is the local of that name. *)
Fixpoint volunteerVictims (pSess : SessId) (target : DeviceSpec)
    (victims : list (N * Ticket)) (released : N) : M C (option bool * N) :=
  match victims with
  | [] => retM (None, released)
  | (usage, victim) :: victims' =>
      let dstTag := mkResourceTag MEMORY target in
      let* rctx := makeResourceContext pSess target {[ dstTag := usage ]} in
      if negb (isGood rctx) then
        destroyResourceContext rctx ;;
        retM (Some false, released)
      else
        emit (EvVolunteer pSess victim rctx) ;;
        let* r := callM (volunteer X pSess victim rctx) in
        let released' := size_add released r in
        if (0 <? released')%N then retM (Some true, released')
        else volunteerVictims pSess target victims' released'
  end.

(** Step 2 of [doPaging]: the loop over [candidates[1..]]. *)
Fixpoint volunteerSessions (target : DeviceSpec) (cands : list (N * SessId))
    (released : N) : M C (option bool * N) :=
  match cands with
  | [] => retM (None, released)
  | (_, pSess) :: cands' =>
      let* e := getM in
      if decide (tickets (sessionOf e pSess) = ∅) then
        (* no need to go beyond: break *)
        retM (None, released)
      else
        let victims := sortVictim X (tickets (sessionOf e pSess)) (m_resMonitor e) in
        if negb (pagingCb (sessionOf e pSess)) then
          volunteerSessions target cands' released
        else
          let* r := volunteerVictims pSess target victims released in
          match r with
          | (Some b, released') => retM (Some b, released')
          | (None, released') => volunteerSessions target cands' released'
          end
  end.

(** The last loop of [doPaging]: forcibly kill one session. *)
Fixpoint forceEvictOne (cands : list (N * SessId)) : M C bool :=
  match cands with
  | [] => retM false
  | (_, pSess) :: cands' =>
      let* e := getM in
      if negb (pagingCb (sessionOf e pSess)) then forceEvictOne cands'
      else
        updSession pSess (set_protectOOM false) ;;
        updSession pSess (set_forceEvicted true) ;;
        emit (EvForceEvicted pSess) ;;
        modifyM (forceEvictedCb X pSess) ;;
        retM true
  end.

(** Step 1 of [doPaging]: usage on the source device of every session,
    sorted in descending order. *)
Definition pagingCandidates (spec : DeviceSpec) (e : ExecutionEngine C)
    : list (N * SessId) :=
  let srcTag := mkResourceTag MEMORY spec in
  std_sort X
    (map (fun pSess => (resourceUsage (sessionOf e pSess) srcTag, pSess))
         (m_sessions e)).

(** [ExecutionEngine::doPaging]. *)
Definition doPaging (spec target : DeviceSpec) : M C bool :=
  let* e := getM in
  let cands := pagingCandidates spec e in
  if (length cands <=? 1)%nat then retM false
  else
    let* r := volunteerSessions target (tail cands) 0%N in
    match r with
    | (Some b, _) => retM b
    | (None, _) => forceEvictOne cands
    end.

(** *** The scheduling loop *)

(** First part of an iteration: take the pending deletions, drop those
    sessions from the live list and append the pending additions. *)
Definition collectChanges : M C SessionChangeSet :=
  let* e := getM in
  let deleted := m_deletedSessions e in
  let kept := filter (fun s => s ∉ deleted) (m_sessions e) in
  let added := m_newSessions e in
  modifyM (set_sessionLists (kept ++ added) [] ∅) ;;
  retM {| deletedSessions := deleted;
          numAddedSessions := length added;
          addedSessionBegin := length kept;
          addedSessionEnd := length (kept ++ added) |}.

(** Cancel every operation of a queue. *)
Fixpoint cancelAll (item : SessId) (ops : list OperationItem) : M C unit :=
  match ops with
  | [] => retM tt
  | opItem :: ops' => emit (EvCancel item opItem) ;; cancelAll item ops'
  end.

(** The body of the loop that prepares a session for the iteration. *)
Definition prepareSession (enableOOMProtect : bool) (item : SessId) : M C nat :=
  updSession item (fun it => set_queues [] (bgQueue it ++ queue it) it) ;;
  let* e := getM in
  (if forceEvicted (sessionOf e item) then
     cancelAll item (bgQueue (sessionOf e item)) ;;
     updSession item (fun it => set_queues (queue it) [] it)
   else retM tt) ;;
  let* e' := getM in
  let remaining := length (bgQueue (sessionOf e' item)) in
  updSession item (set_protectOOM enableOOMProtect) ;;
  updSession item (set_lastScheduled 0) ;;
  retM remaining.

(** The loop over [m_sessions]; the result is [totalRemainingCount]. *)
Fixpoint prepareSessions (enableOOMProtect : bool) (items : list SessId)
    (totalRemainingCount : nat) : M C nat :=
  match items with
  | [] => retM totalRemainingCount
  | item :: items' =>
      let* n := prepareSession enableOOMProtect item in
      prepareSessions enableOOMProtect items' (totalRemainingCount + n)
  end.

(** The loop over the candidates; the result is
    [(remainingCount, scheduled)]. *)
Fixpoint scheduleCandidates (cands : list SessId) (remainingCount scheduled : nat)
    : M C (nat * nat) :=
  match cands with
  | [] => retM (remainingCount, scheduled)
  | item :: cands' =>
      let* (count, shouldContinue) := callM (maybeScheduleFrom X item) in
      updSession item (set_lastScheduled count) ;;
      let* e := getM in
      let remainingCount' :=
        (remainingCount + length (bgQueue (sessionOf e item)))%nat in
      let scheduled' := (scheduled + lastScheduled (sessionOf e item))%nat in
      if negb shouldContinue then retM (remainingCount', scheduled')
      else scheduleCandidates cands' remainingCount' scheduled'
  end.

(** The condition under which the loop turns to paging for [dev]. *)
Definition noProgress (remainingCount scheduled : nat) (e : ExecutionEngine C) : bool :=
  (0 <? remainingCount)%nat && (scheduled =? 0)%nat
    && (m_noPagingRunningTasks e =? 0).

(** The paging check of an iteration; the result is [didPaging]. *)
Definition checkPaging (remainingCount scheduled : nat) : M C bool :=
  let dev := GPU0 in
  let* e := getM in
  if noProgress remainingCount scheduled e then
    let* insufficient := callM (insufficientMemory X dev) in
    if insufficient then
      let* e' := getM in
      if (1 <? length (m_sessions e'))%nat then
        emit (EvDoPaging dev CPU0) ;;
        doPaging dev CPU0
      else if (length (m_sessions e') =? 1)%nat then
        emit (EvSingleSessionOOM (hd 0%nat (m_sessions e'))) ;;
        retM false
      else retM false
    else retM false
  else retM false.

(** The end of an iteration.  The result tells whether the iteration ended
    by [continue] (paging succeeded). *)
Definition pagingOrWait (totalRemainingCount remainingCount scheduled : nat)
    : M C bool :=
  let* didPaging := checkPaging remainingCount scheduled in
  if didPaging then retM true
  else
    emit (EvMaybeWaitForAWhile scheduled) ;;
    (if (totalRemainingCount =? 0)%nat then emit EvWaitForWork else retM tt) ;;
    retM false.

(** An iteration up to the paging check; the result is
    [(totalRemainingCount, remainingCount, scheduled)]. *)
Definition iterationHead : M C (nat * nat * nat) :=
  let* changeset := collectChanges in
  let* e := getM in
  let enableOOMProtect := (1 <? length (m_sessions e))%nat in
  let* totalRemainingCount := prepareSessions enableOOMProtect (m_sessions e) 0 in
  modifyM (notifyPreSchedulingIteration X changeset) ;;
  let* e' := getM in
  let* (remainingCount, scheduled) := scheduleCandidates (candidates e') 0 0 in
  retM (totalRemainingCount, remainingCount, scheduled).

(** The body of the [while (!m_shouldExit)] loop of [scheduleLoop]. *)
Definition scheduleIteration : M C bool :=
  let* (totalRemainingCount, remainingCount, scheduled) := iterationHead in
  pagingOrWait totalRemainingCount remainingCount scheduled.

(** The [while] loop of [ExecutionEngine::scheduleLoop] and the cleanup
    after it, for at most [n] iterations. *)
Fixpoint scheduleLoop (n : nat) : M C unit :=
  match n with
  | O => retM tt
  | S n' =>
      let* e := getM in
      if m_shouldExit e then
        modifyM (fun e => set_sessionLists [] (m_newSessions e) (m_deletedSessions e) e)
      else scheduleIteration ;; scheduleLoop n'
  end.
End Engine.


(** ** The rest of the engine *)

Definition set_resUsage (u : gmap ResourceTag N) (s : SessionItem) : SessionItem :=
  {| sessHandle := sessHandle s; queue := queue s; bgQueue := bgQueue s;
     tickets := tickets s; pagingCb := pagingCb s; protectOOM := protectOOM s;
     forceEvicted := forceEvicted s; lastScheduled := lastScheduled s;
     totalExecutedOp := totalExecutedOp s; resUsage := u |}.

(** [size_t] subtraction of the 64-bit target. *)
Definition size_sub (a b : N) : N := ((a + size_max - b mod size_max) mod size_max)%N.

(** The members of [ExecutionContext::Data] the engine code uses: the
    session item (null once it has been moved out) and the admission offer. *)
Record ContextData := mkContextData {
  item : option SessId;
  resOffer : N
}.

(** The methods of the locked monitor proxy that [ResourceContext] calls;
    [proxy_free] is also [ResourceMonitor::free].  [proxy_allocate] tells
    whether the allocation went through. *)
Record MonitorProxy (C : Components) := mkMonitorProxy {
  proxy_queryStaging : Ticket -> ResourceMonitor C -> Resources;
  proxy_allocate : Ticket -> Resources -> ResourceMonitor C -> bool * ResourceMonitor C;
  proxy_free : Ticket -> Resources -> ResourceMonitor C -> ResourceMonitor C
}.
Arguments proxy_queryStaging {C}.
Arguments proxy_allocate {C}.
Arguments proxy_free {C}.

(** [ResourceContext::OperationScope]: the context it was opened on, the
    resources it holds and its validity. *)
Record OperationScope := mkOperationScope {
  context : ResourceContext;
  scope_res : Resources;
  valid : bool
}.

(** The function-local statics of [maybeWaitForAWhile]: the time of the last
    progress, in clock ticks, and the next sleep, in milliseconds. *)
Record Backoff := mkBackoff {
  bo_last : Z;
  bo_sleep : Z
}.

(** [system_clock] counts nanoseconds on the target; [milliseconds] has a
    64-bit signed representation. *)
Definition ticks_per_ms : Z := 1000000.
Definition wrap_int64 (z : Z) : Z := (z + 2 ^ 63) mod 2 ^ 64 - 2 ^ 63.
Definition initialSleep : Z := 10.
Definition getBored : Z := 20.

(** The statics as their initialisers leave them on the first call, made
    when the clock reads [t0]. *)
Definition backoffInit (t0 : Z) : Backoff :=
  {| bo_last := t0; bo_sleep := initialSleep |}.

(** [ExecutionEngine::maybeWaitForAWhile] on initialised statics, called when
    the clock reads [now].  The result is the returned boolean, the duration
    slept (in milliseconds) if the call slept, and the statics afterwards. *)
Definition maybeWaitForAWhile (scheduled : nat) (now : Z) (st : Backoff)
    : bool * option Z * Backoff :=
  let st1 :=
    if (0 <? scheduled)%nat then {| bo_last := now; bo_sleep := initialSleep |}
    else st in
  let idle := now - bo_last st1 in
  if idle <=? getBored * ticks_per_ms then (false, None, st1)
  else (true, Some (bo_sleep st1),
        {| bo_last := bo_last st1; bo_sleep := wrap_int64 (bo_sleep st1 * 2) |}).

(** Successive calls without progress, one per clock reading. *)
Fixpoint idleCalls (nows : list Z) (st : Backoff) : list (option Z) * Backoff :=
  match nows with
  | [] => ([], st)
  | now :: nows' =>
      let '(_, slept, st1) := maybeWaitForAWhile 0 now st in
      let '(rest, st2) := idleCalls nows' st1 in
      (slept :: rest, st2)
  end.

Section EngineMore.
Context {C : Components} (X : Collaborators C) (P : MonitorProxy C).

(** [ExecutionEngine::insertSession]. *)
Definition insertSession (it : SessId) : M C unit :=
  modifyM (fun e => set_sessionLists (m_sessions e) (m_newSessions e ++ [it])
                      (m_deletedSessions e) e) ;;
  emit EvNotify.

(** [ExecutionEngine::deleteSession]. *)
Definition deleteSession (it : SessId) : M C unit :=
  modifyM (fun e => set_sessionLists (m_sessions e) (m_newSessions e)
                      ({[ it ]} ∪ m_deletedSessions e) e) ;;
  emit EvNotify.

(** [ExecutionContext::Data::insertIntoEngine]. *)
Definition insertIntoEngine (d : ContextData) : M C unit :=
  match item d with
  | Some it => insertSession it
  | None => retM tt
  end.

(** [ExecutionContext::Data::removeFromEngine]; the data afterwards (the
    item has been moved into the engine) is the result. *)
Definition removeFromEngine (d : ContextData) : M C ContextData :=
  match item d with
  | Some it => deleteSession it ;; retM {| item := None; resOffer := resOffer d |}
  | None => retM d
  end.

(** [ExecutionContext::Data::enqueueOperation] for a context that holds its
    session item, as [ExecutionContext::enqueueOperation] asserts. *)
Definition enqueueOperation (it : SessId) (task : OperationTask) : M C unit :=
  pushToSessionQueue {| sess := it; op := task |}.

(** Enqueueing a sequence of tasks, in order. *)
Fixpoint enqueueAll (it : SessId) (tasks : list OperationTask) : M C unit :=
  match tasks with
  | [] => retM tt
  | task :: tasks' => enqueueOperation it task ;; enqueueAll it tasks'
  end.


(** *** ResourceContext, allocation side *)

(** Modelled from the spec: [SessionItem::notifyMemoryAllocation] is defined
    in sessionitem.cpp, which is not part of the sources; it records the
    ticket in the session's ticket set. *)
Definition notifyMemoryAllocation (s : SessId) (t : Ticket) : M C unit :=
  updSession s (fun it => set_tickets ({[ t ]} ∪ tickets it) it).

(** [session->resourceUsage(tag) += n] and [-= n]. *)
Definition addUsage (s : SessId) (tag : ResourceTag) (n : N) : M C unit :=
  updSession s (fun it =>
    set_resUsage (<[ tag := size_add (resourceUsage it tag) n ]> (resUsage it)) it).
Definition subUsage (s : SessId) (tag : ResourceTag) (n : N) : M C unit :=
  updSession s (fun it =>
    set_resUsage (<[ tag := size_sub (resourceUsage it tag) n ]> (resUsage it)) it).

(** Modelled from the spec: the constructor of [OperationScope] is in a
    header that is not part of the sources; a fresh scope holds no resources
    and is taken to be not valid. *)
Definition newOperationScope (rctx : ResourceContext) : OperationScope :=
  {| context := rctx; scope_res := ∅; valid := false |}.

(** [ResourceContext::alloc(ResourceType)]. *)
Definition alloc (rctx : ResourceContext) (type : ResourceType) : M C OperationScope :=
  let scope := newOperationScope rctx in
  let tag := mkResourceTag type (m_spec rctx) in
  let* e := getM in
  let staging := proxy_queryStaging P (m_ticket rctx) (m_resMonitor e) in
  match staging !! tag with
  | None => retM scope
  | Some num =>
      let res := <[ tag := num ]> (scope_res scope) in
      let* ok :=
        callM (fun e =>
                 let '(ok, r) := proxy_allocate P (m_ticket rctx) res (m_resMonitor e) in
                 (ok, set_resMonitor r e)) in
      retM {| context := rctx; scope_res := res; valid := ok |}
  end.

(** [ResourceContext::alloc(ResourceType, size_t)]. *)
Definition alloc_num (rctx : ResourceContext) (type : ResourceType) (num : N)
    : M C OperationScope :=
  let scope := newOperationScope rctx in
  let tag := mkResourceTag type (m_spec rctx) in
  let res := <[ tag := num ]> (scope_res scope) in
  let* ok :=
    callM (fun e =>
             let '(ok, r) := proxy_allocate P (m_ticket rctx) res (m_resMonitor e) in
             (ok, set_resMonitor r e)) in
  retM {| context := rctx; scope_res := res; valid := ok |}.

(** [ResourceContext::dealloc]. *)
Definition dealloc (rctx : ResourceContext) (type : ResourceType) (num : N) : M C unit :=
  let tag := mkResourceTag type (m_spec rctx) in
  modifyM (fun e =>
    set_resMonitor (proxy_free P (m_ticket rctx) {[ tag := num ]} (m_resMonitor e)) e) ;;
  subUsage (session rctx) tag num.

(** [ResourceContext::OperationScope::rollback]. *)
Definition rollback (scope : OperationScope) : M C unit :=
  modifyM (fun e =>
    set_resMonitor
      (proxy_free P (m_ticket (context scope)) (scope_res scope) (m_resMonitor e)) e).

(** The loop of [commit] over the resources of the scope. *)
Fixpoint commitEach (s : SessId) (t : Ticket) (l : list (ResourceTag * N)) : M C unit :=
  match l with
  | [] => retM tt
  | (tag, n) :: l' =>
      addUsage s tag n ;; notifyMemoryAllocation s t ;; commitEach s t l'
  end.

(** [ResourceContext::OperationScope::commit]. *)
Definition commit (scope : OperationScope) : M C unit :=
  if negb (valid scope) then retM tt
  else commitEach (session (context scope)) (m_ticket (context scope))
         (map_to_list (scope_res scope)).
End EngineMore.
(** ** Notions used in the statements *)

Section Notions.
Context {C : Components}.

(** The context [releaseStaging] leaves behind. *)
Definition released_ctx (rctx : ResourceContext) : ResourceContext :=
  {| m_spec := m_spec rctx; m_ticket := m_ticket rctx; session := session rctx;
     hasStaging := false |}.

(** The session store once [t] is taken out of the tickets of [s]. *)
Definition without_ticket (s : SessId) (t : Ticket) (m : gmap SessId SessionItem)
    : gmap SessId SessionItem :=
  alter (fun it => set_tickets (tickets it ∖ {[t]}) it) s m.

(** The operation item once [taskStopped] has released its context. *)
Definition stopped_item (opItem : OperationItem) : OperationItem :=
  {| sess := sess opItem;
     op := {| task_id := task_id (op opItem); isAsync := isAsync (op opItem);
              resourceContext := released_ctx (resourceContext (op opItem)) |} |}.

(** Two session items that differ at most in their tickets. *)
Definition same_but_tickets (a b : SessionItem) : Prop :=
  set_tickets ∅ a = set_tickets ∅ b.

(** Classification of trace events. *)
Definition is_volunteer_of (s : SessId) (ev : Event) : bool :=
  match ev with EvVolunteer s' _ _ => bool_decide (s' = s) | _ => false end.
Definition is_volunteer (ev : Event) : bool :=
  match ev with EvVolunteer _ _ _ => true | _ => false end.
Definition is_forceEvicted (ev : Event) : bool :=
  match ev with EvForceEvicted _ => true | _ => false end.
Definition is_doPaging (ev : Event) : bool :=
  match ev with EvDoPaging _ _ => true | _ => false end.
Definition is_cancel_of (s : SessId) (ev : Event) : bool :=
  match ev with EvCancel s' _ => bool_decide (s' = s) | _ => false end.
(** The events [doPaging] can produce. *)
Definition paging_event (ev : Event) : bool :=
  is_volunteer ev || is_forceEvicted ev.

(** The state in which [doPaging] calls the [forceEvicted] callback of
    [s]: both flags of [s] have been written. *)
Definition marked_evicted (s : SessId) (e : ExecutionEngine C) : ExecutionEngine C :=
  set_store (alter (set_forceEvicted true) s
               (alter (set_protectOOM false) s (store e))) e.

(** Descending order of usage, as the comparator of [doPaging] defines
    it: no element is followed by one of greater usage. *)
Definition usage_descending (l : list (N * SessId)) : Prop :=
  StronglySorted (fun a b => (b.1 <= a.1)%N) l.

Definition is_singleSessionOOM (ev : Event) : bool :=
  match ev with EvSingleSessionOOM _ => true | _ => false end.
Definition is_cancel (ev : Event) : bool :=
  match ev with EvCancel _ _ => true | _ => false end.

(** A session item once the scheduling loop has prepared it for an
    iteration. *)
Definition prepared (enableOOMProtect : bool) (it : SessionItem) : SessionItem :=
  {| sessHandle := sessHandle it;
     queue := [];
     bgQueue := if forceEvicted it then [] else bgQueue it ++ queue it;
     tickets := tickets it; pagingCb := pagingCb it;
     protectOOM := enableOOMProtect;
     forceEvicted := forceEvicted it;
     lastScheduled := 0%nat;
     totalExecutedOp := totalExecutedOp it; resUsage := resUsage it |}.

(** The cancellations the preparation of a session makes. *)
Definition cancellations (s : SessId) (it : SessionItem) : list Event :=
  if forceEvicted it then map (EvCancel s) (bgQueue it ++ queue it) else [].

(** The end of an iteration that does not restart at once: the backoff
    and, when no session has work left, the wait for work. *)
Definition waits (totalRemainingCount scheduled : nat) : list Event :=
  EvMaybeWaitForAWhile scheduled
    :: (if (totalRemainingCount =? 0)%nat then [EvWaitForWork] else []).

End Notions.


(** ** More notions used in the statements *)

(** The operations of the back queues of a list of sessions, counted. *)
Definition pendingCount {C} (e : ExecutionEngine C) (items : list SessId) : nat :=
  sum_list (map (fun s => length (bgQueue (sessionOf e s))) items).

(** A volunteer request that hands over a context freshly staged on [target]
    for the session that is asked. *)
Definition well_staged_request (target : DeviceSpec) (ev : Event) : Prop :=
  match ev with
  | EvVolunteer s _ rctx =>
      hasStaging rctx = true /\ m_spec rctx = target /\ session rctx = s
  | _ => True
  end.
(** ** A concrete set of components

    Simple stand-ins for the components that are parameters above, used to
    run the engine on concrete states. *)

Module Sample.

(** Modelled from the spec: the [ResourceMonitor] class is not part of the
    sources.  Free capacity per resource tag, the next ticket, and per
    ticket the staged and the committed quantities. *)
Record Monitor := mkMonitor {
  mon_free : gmap ResourceTag N;
  mon_next : N;
  mon_staging : gmap N (gmap ResourceTag N);
  mon_committed : gmap N (gmap ResourceTag N)
}.

(** Modelled from the spec: the worker pool is not part of the sources; a
    fixed capacity and the closures accepted so far. *)
Record Pool := mkPool {
  pool_capacity : nat;
  pool_accepted : list OperationItem
}.

Definition components : Components :=
  {| ResourceMonitor := Monitor; ThreadPool := Pool; Scheduler := unit |}.

Definition quantity (r : gmap ResourceTag N) (tag : ResourceTag) : N :=
  default 0%N (r !! tag).

Definition fits (res free : gmap ResourceTag N) : bool :=
  forallb (fun p : ResourceTag * N => (p.2 <=? quantity free p.1)%N) (map_to_list res).

Definition sample_preAllocate (res : gmap ResourceTag N) (m : Monitor)
    : option N * Monitor :=
  if fits res (mon_free m) then
    (Some (mon_next m),
     {| mon_free :=
          merge (fun f r => match f, r with
                            | Some a, Some b => Some (a - b)%N
                            | _, _ => f
                            end) (mon_free m) res;
        mon_next := (mon_next m + 1)%N;
        mon_staging := <[ mon_next m := res ]> (mon_staging m);
        mon_committed := mon_committed m |})
  else (None, m).

Definition sample_freeStaging (t : N) (m : Monitor) : Monitor :=
  {| mon_free := union_with (fun a b => Some (a + b)%N) (mon_free m)
                   (default ∅ (mon_staging m !! t));
     mon_next := mon_next m;
     mon_staging := delete t (mon_staging m);
     mon_committed := mon_committed m |}.

Definition nonzero (r : gmap ResourceTag N) : bool :=
  existsb (fun p : ResourceTag * N => (0 <? p.2)%N) (map_to_list r).

Definition sample_hasUsage (t : N) (m : Monitor) : bool :=
  nonzero (default ∅ (mon_staging m !! t))
  || nonzero (default ∅ (mon_committed m !! t)).

Definition memoryOf (r : gmap ResourceTag N) : N :=
  foldr (fun (p : ResourceTag * N) acc =>
           match tag_type p.1 with MEMORY => (p.2 + acc)%N | _ => acc end)
        0%N (map_to_list r).

(** Insertion sort in descending order of the first component. *)
Fixpoint insert_desc {A} (x : N * A) (l : list (N * A)) : list (N * A) :=
  match l with
  | [] => [x]
  | y :: l' => if (y.1 <? x.1)%N then x :: y :: l' else y :: insert_desc x l'
  end.
Definition sort_desc {A} (l : list (N * A)) : list (N * A) :=
  foldr insert_desc [] l.

Definition sample_sortVictim (ts : gset N) (m : Monitor) : list (N * N) :=
  sort_desc (map (fun t => (memoryOf (default ∅ (mon_committed m !! t)), t))
                 (elements ts)).

Definition sample_tryRun (o : OperationItem) (p : Pool) : bool * Pool :=
  if (length (pool_accepted p) <? pool_capacity p)%nat
  then (false, {| pool_capacity := pool_capacity p;
                  pool_accepted := pool_accepted p ++ [o] |})
  else (true, p).

Definition set_candidates (l : list nat) (e : ExecutionEngine components) :=
  @mkExecutionEngine components (store e) (m_sessions e) (m_newSessions e) (m_deletedSessions e)
    (m_resMonitor e) (m_pool e) (m_runningTasks e) (m_noPagingRunningTasks e)
    (m_shouldExit e) (scheduler e) l.

(** Components with a policy that offers every live session and schedules
    nothing, paging callbacks by which session [s] releases [vol s] bytes
    per request and keeps the context it is given, and logging at
    verbosity [verbosity]. *)
Definition collaborators (vol : nat -> N) (verbosity : nat)
    : Collaborators components :=
  mkCollaborators components
    sample_freeStaging sample_hasUsage sample_preAllocate sample_sortVictim
    sample_tryRun
    (fun _ e => set_candidates (m_sessions e) e)
    (fun _ e => ((0%nat, true), e))
    (fun _ e => (true, e))
    (fun s _ _ e => (vol s, e))
    (fun _ e => e)
    (fun l => (l <=? verbosity)%nat)
    sort_desc.

Definition gpuMem : ResourceTag := mkResourceTag MEMORY GPU0.
Definition cpuMem : ResourceTag := mkResourceTag MEMORY CPU0.

(** A session with a handle, tickets, GPU memory usage and, possibly,
    paging callbacks. *)
Definition mkSession (h : string) (ts : list N) (usage : N) (cb : bool)
    (q : list OperationItem) : SessionItem :=
  {| sessHandle := h; queue := q; bgQueue := []; tickets := list_to_set ts;
     pagingCb := cb; protectOOM := true; forceEvicted := false;
     lastScheduled := 0%nat; totalExecutedOp := 0%N;
     resUsage := {[ gpuMem := usage ]} |}.

(** A monitor with [cpu] bytes of free CPU memory in which tickets [ts]
    hold committed GPU memory. *)
Definition mkMon (cpu : N) (ts : list (N * N)) : Monitor :=
  {| mon_free := {[ cpuMem := cpu ]};
     mon_next := 100%N;
     mon_staging := ∅;
     mon_committed :=
       list_to_map (map (fun p : N * N => (p.1, {[ gpuMem := p.2 ]})) ts) |}.

Definition mkEngine (ss : list (nat * SessionItem)) (mon : Monitor) (cap : nat)
    : ExecutionEngine components :=
  @mkExecutionEngine components (list_to_map ss) (map fst ss) [] ∅ mon
    {| pool_capacity := cap; pool_accepted := [] |} 0 0 false tt [].

(** An operation of session [s] with a staged resource context. *)
Definition mkOp (s id : nat) (async staged : bool) (t : N) : OperationItem :=
  {| sess := s;
     op := {| task_id := id; isAsync := async;
              resourceContext := {| m_spec := GPU0; m_ticket := t; session := s;
                                    hasStaging := staged |} |} |}.

(** Logging off, no session releases anything. *)
Definition quiet : Collaborators components := collaborators (fun _ => 0%N) 0.
(** Verbose logging, no session releases anything. *)
Definition verbose : Collaborators components := collaborators (fun _ => 0%N) 2.
(** Logging off, session 3 releases ten bytes per request. *)
Definition generous : Collaborators components :=
  collaborators (fun s => if decide (s = 3%nat) then 10%N else 0%N) 0.

(** Three sessions with paging callbacks: A is the largest consumer, B
    holds no ticket, C holds ticket 7. *)
Definition threeSessions : ExecutionEngine components :=
  mkEngine [(1%nat, mkSession "A" [1%N] 900 true []);
            (2%nat, mkSession "B" [] 50 true []);
            (3%nat, mkSession "C" [7%N] 10 true [])]
           (mkMon 1000 [(1%N, 900%N); (7%N, 10%N)]) 1.

(** Two sessions with paging callbacks and queued operations; [cpu] bytes
    of CPU memory are free. *)
Definition twoSessions (cpu : N) : ExecutionEngine components :=
  mkEngine [(1%nat, mkSession "A" [1%N] 900 true
                      [mkOp 1 10 false true 11; mkOp 1 11 true true 12]);
            (2%nat, mkSession "B" [2%N] 100 true [mkOp 2 20 false true 21])]
           (mkMon cpu [(1%N, 900%N); (2%N, 100%N)]) 1.

(** One session without paging callbacks. *)
Definition oneSession : ExecutionEngine components :=
  mkEngine [(1%nat, mkSession "A" [1%N] 900 false [mkOp 1 10 false true 11])]
           (mkMon 1000 [(1%N, 900%N)]) 1.

(** The state once a worker has started operation [o]. *)
Definition running (o : OperationItem) (e : ExecutionEngine components)
    : ExecutionEngine components :=
  final (poolClosure o e).

(** The state after [doPaging] has force-evicted session A, whose front
    queue holds two operations. *)
Definition afterEviction : ExecutionEngine components :=
  final (doPaging quiet GPU0 CPU0 (twoSessions 1000)).

(** Modelled from the spec: the locked proxy of the monitor is not part of
    the sources.  An allocation moves quantities from the staging of the
    ticket to its committed usage, if the staging holds them; freeing
    returns committed quantities to the free capacity. *)
Definition sample_queryStaging (t : N) (m : Monitor) : gmap ResourceTag N :=
  default ∅ (mon_staging m !! t).

Definition minus (a b : gmap ResourceTag N) : gmap ResourceTag N :=
  merge (fun x y => match x, y with
                    | Some u, Some v => Some (u - v)%N
                    | _, _ => x
                    end) a b.

Definition plus (a b : gmap ResourceTag N) : gmap ResourceTag N :=
  union_with (fun u v => Some (u + v)%N) a b.

Definition sample_allocate (t : N) (res : gmap ResourceTag N) (m : Monitor)
    : bool * Monitor :=
  if fits res (sample_queryStaging t m) then
    (true,
     {| mon_free := mon_free m; mon_next := mon_next m;
        mon_staging := <[ t := minus (sample_queryStaging t m) res ]> (mon_staging m);
        mon_committed :=
          <[ t := plus (default ∅ (mon_committed m !! t)) res ]> (mon_committed m) |})
  else (false, m).

Definition sample_free (t : N) (res : gmap ResourceTag N) (m : Monitor) : Monitor :=
  {| mon_free := plus (mon_free m) res; mon_next := mon_next m;
     mon_staging := mon_staging m;
     mon_committed :=
       <[ t := minus (default ∅ (mon_committed m !! t)) res ]> (mon_committed m) |}.

Definition proxy : MonitorProxy components :=
  mkMonitorProxy components sample_queryStaging sample_allocate sample_free.

(** The state in which session 1 of [oneSession] has staged 100 bytes of
    GPU memory, and the context that holds the staging. *)
Definition stagedContext : ResourceContext :=
  result (makeResourceContext quiet 1 GPU0 {[ gpuMem := 100%N ]}
            (mkEngine [(1%nat, mkSession "A" [1%N] 900 false [])]
                      {| mon_free := {[ gpuMem := 500%N ]}; mon_next := 100%N;
                         mon_staging := ∅; mon_committed := ∅ |} 1)).
Definition stagedEngine : ExecutionEngine components :=
  final (makeResourceContext quiet 1 GPU0 {[ gpuMem := 100%N ]}
           (mkEngine [(1%nat, mkSession "A" [1%N] 900 false [])]
                     {| mon_free := {[ gpuMem := 500%N ]}; mon_next := 100%N;
                        mon_staging := ∅; mon_committed := ∅ |} 1)).

(** Two tasks to enqueue on session [s]. *)
Definition twoTasks (s : nat) : list OperationTask :=
  [op (mkOp s 31 false true 41); op (mkOp s 32 true true 42)].

End Sample.
(** ** Properties *)

(** Unfolding of the monad operations. *)
Ltac run_m :=
  unfold bindM, retM, getM, modifyM, emit, callM, lock, updSession,
    result, final, trace in *; simpl in *.

Section Properties.
Context {C : Components} (X : Collaborators C).
Implicit Types (e : ExecutionEngine C) (rctx : ResourceContext)
  (opItem : OperationItem) (s : SessId) (ev : Event).

(** *** ResourceContext::releaseStaging *)

Lemma releaseStaging_unstaged rctx e :
  hasStaging rctx = false -> releaseStaging X rctx e = (rctx, e, []).
Proof. intros H. unfold releaseStaging. rewrite H. reflexivity. Qed.

Lemma releaseStaging_staged rctx e :
  hasStaging rctx = true ->
  let mon' := freeStaging X (m_ticket rctx) (m_resMonitor e) in
  releaseStaging X rctx e =
    if hasUsage X (m_ticket rctx) mon'
    then (released_ctx rctx, set_resMonitor mon' e, [EvFreeStaging (m_ticket rctx)])
    else (released_ctx rctx,
          set_store (without_ticket (session rctx) (m_ticket rctx) (store e))
            (set_resMonitor mon' e),
          [EvFreeStaging (m_ticket rctx);
           EvRemoveTicket (session rctx) (m_ticket rctx)]).
Proof.
  intros H mon'. unfold releaseStaging, removeTicketFromSession,
    removeMemoryAllocationTicket. rewrite H. run_m.
  fold mon'. destruct (hasUsage X (m_ticket rctx) mon'); reflexivity.
Qed.

(** C10.  After a call of [releaseStaging] the context has no staging, and
    a further call (the destructor's included) changes neither the context
    nor the engine and does nothing observable.  A call frees the staging
    only when the context has staging, and it removes the ticket from the
    session exactly when, in addition, the monitor reports no usage of the
    ticket once the staging is freed. *)
Theorem releaseStaging_idempotent rctx e :
  let r := releaseStaging X rctx e in
  let mon' := freeStaging X (m_ticket rctx) (m_resMonitor e) in
  let removes := hasStaging rctx && negb (hasUsage X (m_ticket rctx) mon') in
  hasStaging (result r) = false
  /\ releaseStaging X (result r) (final r) = (result r, final r, [])
  /\ destroyResourceContext X (result r) (final r) = (tt, final r, [])
  /\ trace r =
       (if hasStaging rctx then [EvFreeStaging (m_ticket rctx)] else [])
       ++ (if removes then [EvRemoveTicket (session rctx) (m_ticket rctx)] else [])
  /\ store (final r) =
       (if removes
        then without_ticket (session rctx) (m_ticket rctx) (store e)
        else store e)
  /\ m_resMonitor (final r) = (if hasStaging rctx then mon' else m_resMonitor e).
Proof.
  intros r mon' removes. subst r removes.
  destruct (hasStaging rctx) eqn:Hs.
  - rewrite (releaseStaging_staged _ _ Hs). fold mon'.
    unfold destroyResourceContext, bindM.
    destruct (hasUsage X (m_ticket rctx) mon'); simpl;
      rewrite releaseStaging_unstaged by reflexivity; simpl; auto 10.
  - rewrite (releaseStaging_unstaged _ _ Hs). simpl.
    unfold destroyResourceContext, bindM.
    rewrite (releaseStaging_unstaged _ _ Hs). simpl. auto 10.
Qed.

(** *** Task lifecycle *)

Lemma releaseStaging_counters rctx e :
  let r := releaseStaging X rctx e in
  m_runningTasks (final r) = m_runningTasks e
  /\ m_noPagingRunningTasks (final r) = m_noPagingRunningTasks e
  /\ m_pool (final r) = m_pool e
  /\ m_sessions (final r) = m_sessions e.
Proof.
  intros r. subst r. destruct (hasStaging rctx) eqn:Hs.
  - rewrite (releaseStaging_staged _ _ Hs).
    destruct (hasUsage _ _ _); simpl; auto.
  - rewrite (releaseStaging_unstaged _ _ Hs). simpl; auto.
Qed.

Lemma releaseStaging_result rctx e :
  result (releaseStaging X rctx e) =
    if hasStaging rctx then released_ctx rctx else rctx.
Proof.
  destruct (hasStaging rctx) eqn:Hs.
  - rewrite (releaseStaging_staged _ _ Hs). by destruct (hasUsage _ _ _).
  - by rewrite (releaseStaging_unstaged _ _ Hs).
Qed.

Lemma releaseStaging_store rctx e :
  store (final (releaseStaging X rctx e)) =
    if hasStaging rctx
       && negb (hasUsage X (m_ticket rctx)
                  (freeStaging X (m_ticket rctx) (m_resMonitor e)))
    then without_ticket (session rctx) (m_ticket rctx) (store e)
    else store e.
Proof.
  destruct (hasStaging rctx) eqn:Hs.
  - rewrite (releaseStaging_staged _ _ Hs). by destruct (hasUsage _ _ _).
  - by rewrite (releaseStaging_unstaged _ _ Hs).
Qed.

Lemma releaseStaging_lookup rctx e s it :
  store e !! s = Some it ->
  exists it', store (final (releaseStaging X rctx e)) !! s = Some it'
              /\ same_but_tickets it' it.
Proof.
  intros Hit. rewrite releaseStaging_store. destruct (_ && _).
  - unfold without_ticket. rewrite lookup_alter. case_decide as Heq.
    + subst. rewrite Hit. simpl. eexists; split; [done|]. reflexivity.
    + exists it. split; [done|reflexivity].
  - exists it. split; [done|reflexivity].
Qed.

Lemma same_but_tickets_fields (a b : SessionItem) :
  same_but_tickets a b ->
  queue a = queue b /\ bgQueue a = bgQueue b /\ protectOOM a = protectOOM b
  /\ forceEvicted a = forceEvicted b /\ totalExecutedOp a = totalExecutedOp b
  /\ pagingCb a = pagingCb b.
Proof.
  unfold same_but_tickets, set_tickets. intros H.
  injection H; intros; auto 10.
Qed.

(** What [taskStopped] amounts to: release the staging, count the
    operation when it succeeded and verbose logging is on, and decrement
    the task counters. *)
Lemma taskStopped_run opItem failed e :
  let rs := releaseStaging X (resourceContext (op opItem)) e in
  let e1 := final rs in
  let e2 :=
    if negb failed && VLOG_IS_ON X 2 then
      set_store
        (alter (fun it => set_totalExecutedOp (totalExecutedOp it + 1)%N it)
               (sess opItem) (store e1)) e1
    else e1 in
  let e3 := set_runningTasks (m_runningTasks e2 - 1) e2 in
  let e4 :=
    if isAsync (op opItem) then e3
    else set_noPagingRunningTasks (m_noPagingRunningTasks e3 - 1) e3 in
  taskStopped X opItem failed e =
    ({| sess := sess opItem;
        op := {| task_id := task_id (op opItem); isAsync := isAsync (op opItem);
                 resourceContext := result rs |} |}, e4, trace rs).
Proof.
  intros rs e1 e2 e3 e4. subst e4 e3 e2 e1 rs.
  unfold taskStopped. run_m.
  destruct (releaseStaging X (resourceContext (op opItem)) e) as [[rc e1] t1].
  simpl.
  assert (Hal : store e1 !! sess opItem = None ->
                set_store (alter (fun it => set_totalExecutedOp (totalExecutedOp it + 1)%N it)
                        (sess opItem) (store e1)) e1 = e1).
  { intros Hl. rewrite alter_id; [by destruct e1|]. intros x Hx. congruence. }
  destruct failed, (VLOG_IS_ON X 2); simpl;
    try (destruct (store e1 !! sess opItem) eqn:Hl; simpl; [|rewrite (Hal eq_refl)]);
    destruct (isAsync (op opItem)); simpl; rewrite ?app_nil_r; reflexivity.
Qed.
Lemma taskStopped_final opItem failed e it :
  store e !! sess opItem = Some it ->
  let r := taskStopped X opItem failed e in
  (exists it', store (final r) !! sess opItem = Some it'
      /\ totalExecutedOp it' =
           (if negb failed && VLOG_IS_ON X 2 then totalExecutedOp it + 1
            else totalExecutedOp it)%N
      /\ queue it' = queue it /\ bgQueue it' = bgQueue it
      /\ protectOOM it' = protectOOM it /\ forceEvicted it' = forceEvicted it)
  /\ m_runningTasks (final r) = m_runningTasks e - 1
  /\ m_noPagingRunningTasks (final r) =
       (if isAsync (op opItem) then m_noPagingRunningTasks e
        else m_noPagingRunningTasks e - 1)
  /\ result r =
       (if hasStaging (resourceContext (op opItem)) then stopped_item opItem
        else opItem)
  /\ trace r = trace (releaseStaging X (resourceContext (op opItem)) e).
Proof.
  intros Hit r. subst r. rewrite taskStopped_run.
  destruct (releaseStaging_counters (resourceContext (op opItem)) e)
    as (Hr & Hn & _ & _).
  destruct (releaseStaging_lookup (resourceContext (op opItem)) e _ _ Hit)
    as (it1 & Hit1 & Hsame).
  apply same_but_tickets_fields in Hsame as (Hq & Hbg & Hp & Hf & Ht & _).
  pose proof (releaseStaging_result (resourceContext (op opItem)) e) as Hres.
  set (rs := releaseStaging X (resourceContext (op opItem)) e) in *.
  unfold final at 1 2 3. simpl.
  split; [|split; [|split; [|split]]].
  - destruct (negb failed && VLOG_IS_ON X 2).
    + destruct (isAsync (op opItem)); simpl; rewrite lookup_alter_eq, Hit1;
        simpl; eexists; (split; [reflexivity|]); simpl; rewrite Ht; auto 10.
    + destruct (isAsync (op opItem)); simpl; rewrite Hit1;
        eexists; (split; [reflexivity|]); auto 10.
  - destruct (negb failed && VLOG_IS_ON X 2), (isAsync (op opItem)); simpl; lia.
  - destruct (negb failed && VLOG_IS_ON X 2), (isAsync (op opItem)); simpl; lia.
  - unfold result at 1. simpl. rewrite Hres.
    destruct opItem as [sx [ti ia [sp tk se hs]]]; simpl. by destruct hs.
  - reflexivity.
Qed.

(** C2, as amended.  When the [done] callback of an operation fires while
    its session is alive, [m_runningTasks] goes down by one,
    [m_noPagingRunningTasks] goes down by one when the operation is
    synchronous and is unchanged otherwise, and the session's
    [totalExecutedOp] goes up by one when verbose logging at level 2 is on
    and is unchanged otherwise. *)
Theorem done_updates_counters opItem e it :
  store e !! sess opItem = Some it ->
  let r := cbs_done X opItem e in
  totalExecutedOp (sessionOf (final r) (sess opItem)) =
    (if VLOG_IS_ON X 2 then totalExecutedOp it + 1 else totalExecutedOp it)%N
  /\ m_runningTasks (final r) = m_runningTasks e - 1
  /\ m_noPagingRunningTasks (final r) =
       (if isAsync (op opItem) then m_noPagingRunningTasks e
        else m_noPagingRunningTasks e - 1).
Proof.
  intros Hit r. subst r. unfold cbs_done, bindM, retM.
  destruct (taskStopped_final opItem false e it Hit)
    as ((it' & Hit' & Ht & _) & Hr & Hn & _).
  destruct (taskStopped X opItem false e) as [[o e1] t1].
  unfold final in *. simpl in *.
  unfold sessionOf. rewrite Hit'. simpl. auto.
Qed.

(** C6.  The [memFailure] callback returns false and does nothing when the
    session is gone or when its [protectOOM] flag is off.  Otherwise it
    does what [taskStopped] does for a failed operation: the staging of the
    operation's context, if it has any, is freed in the monitor, the ticket
    is taken off the context's session when the monitor then reports no
    usage, both counters go down as for any stopped task, and
    [totalExecutedOp] is left alone.  It then appends the operation, its
    context released, to the session's front queue, notifies the scheduler
    and returns true; nothing else in the engine changes. *)
Theorem memFailure_requeues opItem e :
  let r := cbs_memFailure X opItem e in
  match store e !! sess opItem with
  | None => r = (false, e, [])
  | Some it =>
      if protectOOM it then
        let rs := taskStopped X opItem true e in
        let rctx := resourceContext (op opItem) in
        let mon' := freeStaging X (m_ticket rctx) (m_resMonitor e) in
        let removes := hasStaging rctx && negb (hasUsage X (m_ticket rctx) mon') in
        let requeued := if hasStaging rctx then stopped_item opItem else opItem in
        let released_store :=
          if removes then without_ticket (session rctx) (m_ticket rctx) (store e)
          else store e in
        result r = true
        /\ trace r = trace rs ++ [EvNotify]
        /\ hasStaging (resourceContext (op (result rs))) = false
        /\ m_runningTasks (final r) = m_runningTasks e - 1
        /\ m_noPagingRunningTasks (final r) =
             (if isAsync (op opItem) then m_noPagingRunningTasks e
              else m_noPagingRunningTasks e - 1)
        /\ totalExecutedOp (sessionOf (final r) (sess opItem)) = totalExecutedOp it
        /\ queue (sessionOf (final r) (sess opItem)) = queue it ++ [result rs]
        /\ bgQueue (sessionOf (final r) (sess opItem)) = bgQueue it
        /\ result rs = requeued
        /\ r = (true,
                mkExecutionEngine
                  (alter (fun it' => set_queues (queue it' ++ [requeued]) (bgQueue it') it')
                         (sess opItem) released_store)
                  (m_sessions e) (m_newSessions e) (m_deletedSessions e)
                  (if hasStaging rctx then mon' else m_resMonitor e)
                  (m_pool e)
                  (m_runningTasks e - 1)
                  (if isAsync (op opItem) then m_noPagingRunningTasks e
                   else m_noPagingRunningTasks e - 1)
                  (m_shouldExit e) (scheduler e) (candidates e),
                (if hasStaging rctx then [EvFreeStaging (m_ticket rctx)] else [])
                ++ (if removes then [EvRemoveTicket (session rctx) (m_ticket rctx)]
                    else [])
                ++ [EvNotify])
      else r = (false, e, [])
  end.
Proof.
  intros r. subst r.
  destruct (store e !! sess opItem) as [it|] eqn:Hit.
  2:{ unfold cbs_memFailure, bindM, lock, retM. cbn beta. by rewrite Hit. }
  destruct (protectOOM it) eqn:Hp.
  2:{ unfold cbs_memFailure, bindM, lock, retM. cbn beta. by rewrite Hit, Hp. }
  intros rs rctx mon' removes requeued released_store.
  assert (Hexact : cbs_memFailure X opItem e
            = (true,
               mkExecutionEngine
                 (alter (fun it' => set_queues (queue it' ++ [requeued]) (bgQueue it') it')
                        (sess opItem) released_store)
                 (m_sessions e) (m_newSessions e) (m_deletedSessions e)
                 (if hasStaging rctx then mon' else m_resMonitor e)
                 (m_pool e)
                 (m_runningTasks e - 1)
                 (if isAsync (op opItem) then m_noPagingRunningTasks e
                  else m_noPagingRunningTasks e - 1)
                 (m_shouldExit e) (scheduler e) (candidates e),
               (if hasStaging rctx then [EvFreeStaging (m_ticket rctx)] else [])
               ++ (if removes then [EvRemoveTicket (session rctx) (m_ticket rctx)]
                   else [])
               ++ [EvNotify])).
  { assert (Hlive : is_Some (released_store !! sess opItem)).
    { subst released_store. destruct removes; [|by rewrite Hit].
      unfold without_ticket. rewrite lookup_alter.
      case_decide as Heq; [rewrite Heq|]; by rewrite Hit. }
    destruct Hlive as [it1 Hit1].
    unfold cbs_memFailure, bindM, lock. cbn beta. rewrite Hit, Hp. cbn [negb].
    rewrite taskStopped_run. cbn [negb andb].
    subst released_store removes requeued mon' rctx. unfold stopped_item.
    destruct (hasStaging (resourceContext (op opItem))) eqn:Hs.
    - rewrite (releaseStaging_staged _ _ Hs). cbn [andb] in *.
      destruct (hasUsage X _ _); cbn [negb] in *;
        unfold pushToSessionQueue, bindM, lock, retM, updSession, modifyM, emit,
          result, final, trace; cbn [fst snd sess];
        destruct (isAsync (op opItem)); simpl; rewrite Hit1; reflexivity.
    - rewrite (releaseStaging_unstaged _ _ Hs). cbn [andb] in *.
      unfold pushToSessionQueue, bindM, lock, retM, updSession, modifyM, emit,
        result, final, trace; cbn [fst snd sess].
      destruct opItem as [sx [ti ia rc]]; simpl in *.
      destruct ia; simpl; rewrite Hit1; reflexivity. }
  unfold cbs_memFailure, bindM, lock, retM in *. cbn beta in *.
  rewrite Hit, Hp in *. cbn [negb] in *.
  destruct (taskStopped_final opItem true e it Hit)
    as ((it' & Hit' & Ht & Hq & Hbg & _) & Hr & Hn & Hres & _).
  fold rs in Hit', Hr, Hn, Hres, Hexact |- *.
  destruct rs as [[o e1] t1] eqn:Hts.
  unfold final, result, trace in *. simpl in *.
  assert (Hs : sess o = sess opItem).
  { rewrite Hres. by destruct (hasStaging _). }
  rewrite <- Hexact.
  unfold pushToSessionQueue, bindM, lock, retM, updSession, modifyM, emit.
  rewrite Hs, Hit'. simpl. unfold sessionOf. simpl.
  rewrite lookup_alter_eq, Hit'. simpl.
  rewrite Hq, Hbg, Ht.
  split_and!; auto.
  rewrite Hres. unfold stopped_item. by destruct (hasStaging _) eqn:?.
Qed.

(** C7.  [submitTask] drops the operation and returns null when the session
    is gone; returns the operation itself, without touching the pool, when
    its resource context is not good; and otherwise offers the closure to
    the pool, returning the operation when the pool hands the closure back
    (pool full) and null when the pool accepts it. *)
Theorem submitTask_outcomes opItem e :
  let r := submitTask X opItem e in
  (store e !! sess opItem = None -> r = (None, e, []))
  /\ (is_Some (store e !! sess opItem) ->
      isGood (resourceContext (op opItem)) = false ->
      r = (Some opItem, e, []))
  /\ (is_Some (store e !! sess opItem) ->
      isGood (resourceContext (op opItem)) = true ->
      (tryRun X opItem (m_pool e)).1 = true ->
      r = (Some opItem, set_pool (tryRun X opItem (m_pool e)).2 e, []))
  /\ (is_Some (store e !! sess opItem) ->
      isGood (resourceContext (op opItem)) = true ->
      (tryRun X opItem (m_pool e)).1 = false ->
      r = (None, set_pool (tryRun X opItem (m_pool e)).2 e, [])).
Proof.
  intros r. subst r. unfold submitTask, bindM, lock, retM, callM.
  split; [|split; [|split]].
  - by intros ->.
  - intros [it Hit] Hg. rewrite Hit, Hg. reflexivity.
  - intros [it Hit] Hg. rewrite Hit, Hg. simpl.
    destruct (tryRun X opItem (m_pool e)) as [c p]. simpl.
    intros Hc. rewrite Hc. reflexivity.
  - intros [it Hit] Hg. rewrite Hit, Hg. simpl.
    destruct (tryRun X opItem (m_pool e)) as [c p]. simpl.
    intros Hc. rewrite Hc. reflexivity.
Qed.


(** *** Paging *)

Lemma makeResourceContext_run s spec res e :
  makeResourceContext X s spec res e =
    match preAllocate X res (m_resMonitor e) with
    | (Some t, r) =>
        ({| m_spec := spec; m_ticket := t; session := s; hasStaging := true |},
         set_resMonitor r e, [])
    | (None, r) =>
        ({| m_spec := spec; m_ticket := 0%N; session := s; hasStaging := false |},
         set_resMonitor r e, [])
    end.
Proof.
  unfold makeResourceContext, initializeStaging. run_m.
  destruct (preAllocate X res (m_resMonitor e)) as [[t|] r]; reflexivity.
Qed.

(** The inner loop calls the callback of [pSess] only. *)
Lemma volunteerVictims_trace pSess target victims released e :
  Forall (fun ev => is_volunteer_of pSess ev = true)
         (trace (volunteerVictims X pSess target victims released e)).
Proof.
  revert released e. induction victims as [|[usage victim] victims IH];
    intros released e; simpl.
  - constructor.
  - unfold bindM at 1. rewrite makeResourceContext_run.
    destruct (preAllocate X _ (m_resMonitor e)) as [[t|] r]; simpl.
    + unfold bindM, emit, callM, retM. simpl.
      destruct (volunteer X pSess victim _ _) as [n e1]. simpl.
      destruct (0 <? size_add released n)%N; simpl.
      * repeat constructor. simpl. by rewrite bool_decide_eq_true.
      * specialize (IH (size_add released n) e1).
        destruct (volunteerVictims X pSess target victims _ e1) as [[o e2] t2].
        unfold trace in *. simpl in *. constructor; [|done].
        simpl. by rewrite bool_decide_eq_true.
    + constructor.
Qed.

(** The volunteer phase calls the callbacks of the sessions it is given
    only. *)
Lemma volunteerSessions_trace target cands released e :
  Forall (fun ev => exists s, s ∈ cands.*2 /\ is_volunteer_of s ev = true)
         (trace (volunteerSessions X target cands released e)).
Proof.
  revert released e. induction cands as [|[u pSess] cands IH];
    intros released e; simpl.
  - constructor.
  - unfold bindM at 1, getM. simpl.
    assert (Hmono : forall l : list Event,
               Forall (fun ev => exists s, s ∈ cands.*2 /\ is_volunteer_of s ev = true) l ->
               Forall (fun ev => exists s, s ∈ pSess :: cands.*2
                                            /\ is_volunteer_of s ev = true) l).
    { intros l Hl. eapply Forall_impl; [exact Hl|]. intros ev (s & Hs & Hv).
      exists s. split; [by right|done]. }
    destruct (decide (tickets (sessionOf e pSess) = ∅)); simpl; [constructor|].
    destruct (pagingCb (sessionOf e pSess)); simpl.
    + pose proof (volunteerVictims_trace pSess target
                    (sortVictim X (tickets (sessionOf e pSess)) (m_resMonitor e))
                    released e) as Hv.
      unfold bindM.
      destruct (volunteerVictims X pSess target _ released e) as [[[o rel] e1] t1].
      unfold trace in Hv. simpl in Hv.
      assert (Forall (fun ev => exists s, s ∈ pSess :: cands.*2
                                          /\ is_volunteer_of s ev = true) t1) as Ht1.
      { eapply Forall_impl; [exact Hv|]. intros ev Hev.
        exists pSess. split; [by left|done]. }
      destruct o as [b|]; simpl.
      * by rewrite app_nil_r.
      * specialize (IH rel e1).
        destruct (volunteerSessions X target cands rel e1) as [[o2 e2] t2].
        unfold trace in *. simpl in *. apply Forall_app. split; [done|].
        by apply Hmono.
    + specialize (IH released e).
      destruct (volunteerSessions X target cands released e) as [[o2 e2] t2].
      unfold trace in *. simpl in *. by apply Hmono.
Qed.

(** What the force-evict loop amounts to: the first candidate with paging
    callbacks is marked and told; with no such candidate nothing happens. *)
Lemma forceEvictOne_run cands e :
  forceEvictOne X cands e =
    match find (fun c : N * SessId => pagingCb (sessionOf e c.2)) cands with
    | Some (_, s) =>
        (true, forceEvictedCb X s (marked_evicted s e), [EvForceEvicted s])
    | None => (false, e, [])
    end.
Proof.
  induction cands as [|[u s] cands IH]; simpl; [reflexivity|].
  unfold bindM at 1, getM. simpl.
  destruct (pagingCb (sessionOf e s)); simpl.
  - reflexivity.
  - rewrite IH. by destruct (find _ cands) as [[??]|].
Qed.

(** [doPaging] in terms of its two phases. *)
Lemma doPaging_run spec target e :
  let cands := pagingCandidates X spec e in
  doPaging X spec target e =
    if (length cands <=? 1)%nat then (false, e, [])
    else
      match volunteerSessions X target (tail cands) 0%N e with
      | ((Some b, _), e1, t1) => (b, e1, t1)
      | ((None, _), e1, t1) =>
          let '(b, e2, t2) := forceEvictOne X cands e1 in (b, e2, t1 ++ t2)
      end.
Proof.
  intros cands. unfold doPaging, bindM, getM, retM. simpl. fold cands.
  destruct (length cands <=? 1)%nat; [reflexivity|].
  destruct (volunteerSessions X target (tail cands) 0%N e) as [[[[b|] rel] e1] t1];
    simpl; [by rewrite app_nil_r|].
  by destruct (forceEvictOne X cands e1) as [[b e2] t2].
Qed.

(** [doPaging] produces paging events only, and they concern candidates. *)
Lemma doPaging_trace spec target e :
  Forall (fun ev => paging_event ev = true) (trace (doPaging X spec target e)).
Proof.
  rewrite doPaging_run. simpl.
  destruct (length _ <=? 1)%nat; [constructor|].
  pose proof (volunteerSessions_trace target (tail (pagingCandidates X spec e)) 0%N e) as Hv.
  destruct (volunteerSessions X target _ 0%N e) as [[[o rel] e1] t1].
  unfold trace in Hv. simpl in Hv.
  assert (Forall (fun ev => paging_event ev = true) t1) as Ht1.
  { eapply Forall_impl; [exact Hv|]. intros ev (s & _ & Hs).
    destruct ev; try discriminate. reflexivity. }
  destruct o as [b|]; [done|].
  rewrite forceEvictOne_run. destruct (find _ _) as [[??]|]; unfold trace; simpl.
  - apply Forall_app. split; [done|]. by repeat constructor.
  - by rewrite app_nil_r.
Qed.


(** C1, as amended.  When the volunteer loop visits a session whose
    ticket set is empty, the loop ends there: the state is untouched, no
    callback is invoked for that session or for any later candidate, and
    [doPaging] goes on to the force-evict loop.  In particular, when the
    second candidate has no tickets, [doPaging] amounts to the force-evict
    loop alone. *)
Theorem volunteer_loop_breaks_on_empty_tickets target u s rest released e :
  tickets (sessionOf e s) = ∅ ->
  volunteerSessions X target ((u, s) :: rest) released e = ((None, released), e, [])
  /\ (forall spec c0,
        pagingCandidates X spec e = c0 :: (u, s) :: rest ->
        doPaging X spec target e = forceEvictOne X (c0 :: (u, s) :: rest) e).
Proof.
  intros Ht.
  assert (Hloop : forall released,
             volunteerSessions X target ((u, s) :: rest) released e
             = ((None, released), e, [])).
  { intros rel. simpl. unfold bindM, getM, retM. simpl.
    by destruct (decide (tickets (sessionOf e s) = ∅)). }
  split; [apply Hloop|].
  intros spec c0 Hc. rewrite doPaging_run. cbv zeta. rewrite Hc.
  cbn [length tail Nat.leb]. rewrite Hloop.
  by destruct (forceEvictOne X (c0 :: (u, s) :: rest) e) as [[b e2] t2].
Qed.

(** C3.  Let the candidates of a call of [doPaging] be sorted by a sort
    that permutes its input and leaves it in descending order of usage,
    and let the live sessions be distinct.  Then the first candidate is a
    live session whose usage on the source device is the greatest of all
    live sessions, and the call never invokes its [volunteer] callback. *)
Theorem doPaging_spares_largest spec target e u0 s0 rest :
  (forall l, Permutation (std_sort X l) l) ->
  (forall l, usage_descending (std_sort X l)) ->
  NoDup (m_sessions e) ->
  pagingCandidates X spec e = (u0, s0) :: rest ->
  s0 ∈ m_sessions e
  /\ u0 = resourceUsage (sessionOf e s0) (mkResourceTag MEMORY spec)
  /\ (forall s, s ∈ m_sessions e ->
        (resourceUsage (sessionOf e s) (mkResourceTag MEMORY spec) <= u0)%N)
  /\ Forall (fun ev => is_volunteer_of s0 ev = false)
            (trace (doPaging X spec target e)).
Proof.
  intros Hperm Hsorted Hnd Hc.
  set (usage := fun p => resourceUsage (sessionOf e p) (mkResourceTag MEMORY spec)).
  set (l0 := map (fun p => (usage p, p)) (m_sessions e)).
  assert (Hp : Permutation ((u0, s0) :: rest) l0).
  { rewrite <- Hc. apply Hperm. }
  assert (Hin : forall u p, (u, p) ∈ l0 <-> p ∈ m_sessions e /\ u = usage p).
  { intros u p. unfold l0. rewrite list_elem_of_fmap. split.
    - intros (q & Heq & Hq). by simplify_eq.
    - intros (Hq & ->). by exists p. }
  assert (Hhead : (u0, s0) ∈ l0).
  { rewrite <- Hp. by left. }
  apply Hin in Hhead as (Hs0 & Hu0).
  assert (Hds : usage_descending ((u0, s0) :: rest)).
  { rewrite <- Hc. apply Hsorted. }
  apply StronglySorted_inv in Hds as (_ & Hle).
  assert (Hnd' : NoDup (s0 :: rest.*2)).
  { change (NoDup (((u0, s0) :: rest).*2)). rewrite Hp. unfold l0.
    rewrite <- list_fmap_compose.
    replace (fmap (snd ∘ (fun p => (usage p, p))) (m_sessions e))
      with (m_sessions e); [done|].
    clear. induction (m_sessions e); simpl; [done|]. by f_equal. }
  apply NoDup_cons in Hnd' as (Hnotin & _).
  repeat split; try done.
  - intros s Hs. assert ((usage s, s) ∈ (u0, s0) :: rest) as Hsin.
    { rewrite Hp. by apply Hin. }
    apply elem_of_cons in Hsin as [Heq | Hrest].
    + injection Heq as <- _. fold (usage s). lia.
    + rewrite Forall_forall in Hle. apply Hle in Hrest. exact Hrest.
  - rewrite doPaging_run. simpl. rewrite Hc. cbn [tail].
    destruct (length _ <=? 1)%nat; [constructor|].
    pose proof (volunteerSessions_trace target rest 0%N e) as Hv.
    destruct (volunteerSessions X target rest 0%N e) as [[[o rel] e1] t1].
    unfold trace in Hv. simpl in Hv.
    assert (Forall (fun ev => is_volunteer_of s0 ev = false) t1) as Ht1.
    { eapply Forall_impl; [exact Hv|]. intros ev (s & Hs & Hev).
      destruct ev; try discriminate. simpl in *.
      apply bool_decide_eq_true in Hev. subst.
      apply bool_decide_eq_false. congruence. }
    destruct o as [b|]; [done|].
    rewrite forceEvictOne_run. destruct (find _ _) as [[??]|]; unfold trace; simpl.
    + apply Forall_app. split; [done|]. by repeat constructor.
    + by rewrite app_nil_r.
Qed.



(** *** The scheduling loop *)

Lemma cancelAll_run item ops e :
  cancelAll item ops e = (tt, e, map (EvCancel item) ops).
Proof.
  induction ops as [|o ops IH]; simpl; [reflexivity|].
  unfold bindM, emit. by rewrite IH.
Qed.

Lemma prepared_idem enable it :
  prepared enable (prepared enable it) = prepared enable it.
Proof.
  unfold prepared. simpl. f_equal.
  destruct (forceEvicted it); [done|]. by rewrite app_nil_r.
Qed.

Lemma cancellations_prepared enable s it :
  cancellations s (prepared enable it) = [].
Proof. unfold cancellations, prepared. simpl. by destruct (forceEvicted it). Qed.

(** Preparing a session that is in the store. *)
Lemma prepareSession_live enable item e it :
  store e !! item = Some it ->
  let r := prepareSession enable item e in
  store (final r) !! item = Some (prepared enable it)
  /\ (forall s, s <> item -> store (final r) !! s = store e !! s)
  /\ m_sessions (final r) = m_sessions e
  /\ trace r = cancellations item it.
Proof.
  intros Hit r. subst r. unfold prepareSession. run_m.
  unfold sessionOf. simpl. rewrite lookup_alter_eq, Hit. simpl.
  destruct (forceEvicted it) eqn:Hfe; simpl.
  - rewrite cancelAll_run. simpl.
    rewrite !lookup_alter_eq, Hit. simpl.
    unfold prepared, cancellations. rewrite Hfe, !app_nil_r.
    split_and!; try done.
    + unfold set_lastScheduled, set_protectOOM, set_queues. simpl.
      by rewrite Hfe, ?app_nil_r.
    + intros s Hs. by rewrite !lookup_alter_ne.
  - rewrite !lookup_alter_eq, Hit. simpl.
    unfold prepared, cancellations. rewrite Hfe.
    split_and!; try done.
    + unfold set_lastScheduled, set_protectOOM, set_queues. simpl.
      by rewrite Hfe, ?app_nil_r.
    + intros s Hs. by rewrite !lookup_alter_ne.
Qed.

(** Preparing a session touches no other session. *)
Lemma prepareSession_other enable item e s :
  s <> item ->
  let r := prepareSession enable item e in
  store (final r) !! s = store e !! s
  /\ m_sessions (final r) = m_sessions e
  /\ List.filter (is_cancel_of s) (trace r) = []
  /\ Forall (fun ev => is_cancel ev = true) (trace r).
Proof.
  intros Hne r. subst r. unfold prepareSession. run_m.
  destruct (forceEvicted _); simpl; rewrite ?cancelAll_run; simpl.
  - rewrite ?app_nil_r, !lookup_alter_ne by done.
    split_and!; try done.
    + induction (bgQueue _) as [|o l IH]; simpl; [done|].
      rewrite bool_decide_eq_false_2 by done. exact IH.
    + apply Forall_forall. intros ev Hev.
      change (ev ∈ EvCancel item <$> bgQueue
                (sessionOf (set_store (alter (fun it : SessionItem =>
                     set_queues [] (bgQueue it ++ queue it) it) item (store e)) e)
                   item)) in Hev.
      apply list_elem_of_fmap in Hev as (o & -> & _). done.
  - rewrite !lookup_alter_ne by done. by split_and!.
Qed.


Lemma filter_cancellations s it :
  List.filter (is_cancel_of s) (cancellations s it) = cancellations s it.
Proof.
  unfold cancellations. destruct (forceEvicted it); [|done].
  induction (bgQueue it ++ queue it) as [|o l IH]; simpl; [done|].
  rewrite bool_decide_eq_true_2 by done. by rewrite IH.
Qed.

Lemma cancellations_are_cancels s it :
  Forall (fun ev => is_cancel ev = true) (cancellations s it).
Proof.
  unfold cancellations. destruct (forceEvicted it); [|constructor].
  apply Forall_forall. intros ev Hev.
  change (ev ∈ EvCancel s <$> (bgQueue it ++ queue it)) in Hev.
  apply list_elem_of_fmap in Hev as (o & -> & _). done.
Qed.

(** The preparation loop, seen from one session [s] of the store: [s] is
    prepared when it is one of the items, its operations are cancelled as
    its [forceEvicted] flag says, and nothing but cancellations happens. *)
Lemma prepareSessions_session enable items total e s it :
  store e !! s = Some it ->
  let r := prepareSessions enable items total e in
  store (final r) !! s
    = Some (if bool_decide (s ∈ items) then prepared enable it else it)
  /\ List.filter (is_cancel_of s) (trace r)
     = (if bool_decide (s ∈ items) then cancellations s it else [])
  /\ m_sessions (final r) = m_sessions e
  /\ Forall (fun ev => is_cancel ev = true) (trace r).
Proof.
  revert total e it. induction items as [|item items IH]; intros total e it Hit.
  - simpl. by split_and!.
  - cbn [prepareSessions]. unfold bindM.
    destruct (decide (s = item)) as [->|Hne].
    + destruct (prepareSession_live enable item e it Hit) as (H1 & _ & Hm1 & Ht1).
      destruct (prepareSession enable item e) as [[n e1] t1].
      unfold final, trace in H1, Hm1, Ht1. simpl in H1, Hm1, Ht1.
      destruct (IH (total + n)%nat e1 _ H1) as (H2 & Hf2 & Hm2 & Hc2).
      destruct (prepareSessions enable items (total + n) e1) as [[n2 e2] t2].
      unfold final, trace in *. simpl in *.
      rewrite bool_decide_eq_true_2 by left.
      rewrite H2, List.filter_app, Hf2, Ht1, filter_cancellations.
      rewrite prepared_idem, cancellations_prepared.
      split_and!.
      * by destruct (bool_decide (item ∈ items)).
      * destruct (bool_decide (item ∈ items)); by rewrite app_nil_r.
      * congruence.
      * apply Forall_app. split; [apply cancellations_are_cancels|done].
    + destruct (prepareSession_other enable item e s Hne) as (H1 & Hm1 & Hf1 & Hc1).
      destruct (prepareSession enable item e) as [[n e1] t1].
      unfold final, trace in H1, Hm1, Hf1, Hc1. simpl in H1, Hm1, Hf1, Hc1.
      rewrite Hit in H1.
      destruct (IH (total + n)%nat e1 _ H1) as (H2 & Hf2 & Hm2 & Hc2).
      destruct (prepareSessions enable items (total + n) e1) as [[n2 e2] t2].
      unfold final, trace in *. simpl in *.
      assert (bool_decide (s ∈ item :: items) = bool_decide (s ∈ items)) as ->.
      { apply bool_decide_ext. rewrite elem_of_cons.
        split; [by intros [?|?]|by right]. }
      rewrite H2, List.filter_app, Hf2, Hf1. split_and!; try done.
      * congruence.
      * by apply Forall_app.
Qed.

Lemma collectChanges_run e :
  let kept := filter (fun s => s ∉ m_deletedSessions e) (m_sessions e) in
  collectChanges e =
    ({| deletedSessions := m_deletedSessions e;
        numAddedSessions := length (m_newSessions e);
        addedSessionBegin := length kept;
        addedSessionEnd := length (kept ++ m_newSessions e) |},
     set_sessionLists (kept ++ m_newSessions e) [] ∅ e, []).
Proof. reflexivity. Qed.

(** The scheduling of the candidates calls the policy only. *)
Lemma scheduleCandidates_trace cands remainingCount scheduled e :
  trace (scheduleCandidates X cands remainingCount scheduled e) = [].
Proof.
  revert remainingCount scheduled e.
  induction cands as [|item cands IH]; intros rc sch e; [reflexivity|].
  simpl. unfold callM, bindM at 1.
  destruct (maybeScheduleFrom X item e) as [[count shouldContinue] e1].
  run_m. destruct shouldContinue; simpl; [|reflexivity].
  specialize (IH (rc + length (bgQueue (sessionOf
                (set_store (alter (set_lastScheduled count) item (store e1)) e1) item)))%nat
               (sch + lastScheduled (sessionOf
                (set_store (alter (set_lastScheduled count) item (store e1)) e1) item))%nat
               (set_store (alter (set_lastScheduled count) item (store e1)) e1)).
  destruct (scheduleCandidates X cands _ _ _) as [[o e2] t2].
  simpl in *. exact IH.
Qed.

(** An iteration up to the paging check, step by step. *)
Lemma iterationHead_run e :
  let e0 := final (collectChanges e) in
  let p := prepareSessions (1 <? length (m_sessions e0))%nat (m_sessions e0) 0 e0 in
  let e1 := notifyPreSchedulingIteration X (result (collectChanges e)) (final p) in
  let sc := scheduleCandidates X (candidates e1) 0 0 e1 in
  iterationHead X e = ((result p, (result sc).1, (result sc).2), final sc, trace p).
Proof.
  intros e0 p e1 sc. unfold iterationHead.
  unfold bindM at 1. rewrite collectChanges_run.
  unfold bindM at 1, getM. cbn [fst snd].
  change (set_sessionLists _ [] ∅ e) with e0.
  unfold bindM at 1. cbn [m_sessions]. fold p.
  destruct p as [[n ep] tp] eqn:Hp.
  unfold bindM at 1, modifyM. unfold bindM at 1, getM.
  unfold bindM at 1.
  pose proof (scheduleCandidates_trace (candidates e1) 0 0 e1) as Hsc.
  unfold result, final, trace in *. simpl in *. subst e1. fold sc in Hsc |- *.
  simpl in sc. destruct sc as [[[rc sch] es] ts]. simpl in *. subst ts.
  unfold retM. by rewrite !app_nil_r.
Qed.






(** The paging check, case by case. *)
Lemma checkPaging_run remainingCount scheduled e :
  checkPaging X remainingCount scheduled e =
    if noProgress remainingCount scheduled e then
      let '(insufficient, e1) := insufficientMemory X GPU0 e in
      if insufficient then
        if (1 <? length (m_sessions e1))%nat then
          let p := doPaging X GPU0 CPU0 e1 in
          (result p, final p, EvDoPaging GPU0 CPU0 :: trace p)
        else if (length (m_sessions e1) =? 1)%nat then
          (false, e1, [EvSingleSessionOOM (hd 0%nat (m_sessions e1))])
        else (false, e1, [])
      else (false, e1, [])
    else (false, e, []).
Proof.
  unfold checkPaging, bindM at 1, getM. cbn [fst snd].
  destruct (noProgress remainingCount scheduled e); [|reflexivity].
  unfold bindM at 1, callM.
  destruct (insufficientMemory X GPU0 e) as [[|] e1]; [|reflexivity].
  unfold bindM at 1. cbn [fst snd].
  destruct (1 <? length (m_sessions e1))%nat.
  - unfold bindM, emit. destruct (doPaging X GPU0 CPU0 e1) as [[b e2] t2].
    reflexivity.
  - destruct (length (m_sessions e1) =? 1)%nat; reflexivity.
Qed.



Lemma pagingOrWait_run totalRemainingCount remainingCount scheduled e :
  let c := checkPaging X remainingCount scheduled e in
  pagingOrWait X totalRemainingCount remainingCount scheduled e =
    (result c, final c,
     trace c ++ (if result c then [] else waits totalRemainingCount scheduled)).
Proof.
  intros c. unfold pagingOrWait, bindM at 1. subst c.
  destruct (checkPaging X remainingCount scheduled e) as [[[|] e1] t1].
  - reflexivity.
  - unfold result, final, trace, waits, bindM, emit, retM. simpl.
    destruct (totalRemainingCount =? 0)%nat; simpl; reflexivity.
Qed.

(** An iteration: its head, the paging check and, unless paging
    succeeded, the backoff and the wait. *)
Lemma scheduleIteration_run e :
  let h := iterationHead X e in
  let c := checkPaging X (result h).1.2 (result h).2 (final h) in
  scheduleIteration X e =
    (result c, final c,
     trace h ++ trace c
       ++ (if result c then [] else waits (result h).1.1 (result h).2)).
Proof.
  intros h c. unfold scheduleIteration, bindM. subst c h.
  destruct (iterationHead X e) as [[[[total rc] sch] e0] th].
  rewrite pagingOrWait_run. reflexivity.
Qed.

(** The events of the paging check. *)
Lemma checkPaging_trace remainingCount scheduled e :
  Forall (fun ev => is_doPaging ev || is_singleSessionOOM ev || paging_event ev = true)
         (trace (checkPaging X remainingCount scheduled e)).
Proof.
  rewrite checkPaging_run.
  destruct (noProgress _ _ _); [|constructor].
  destruct (insufficientMemory X GPU0 e) as [[|] e1]; [|constructor].
  destruct (1 <? length (m_sessions e1))%nat.
  - unfold trace at 1. cbn [snd]. constructor; [done|].
    eapply Forall_impl; [apply doPaging_trace|].
    intros ev ->. by rewrite orb_true_r.
  - destruct (length (m_sessions e1) =? 1)%nat; by repeat constructor.
Qed.

Lemma waits_no_cancel s totalRemainingCount scheduled :
  List.filter (is_cancel_of s) (waits totalRemainingCount scheduled) = [].
Proof. unfold waits. by destruct (totalRemainingCount =? 0)%nat. Qed.

Lemma filter_excluded (f g : Event -> bool) (l : list Event) :
  (forall ev, g ev = true -> f ev = false) ->
  Forall (fun ev => g ev = true) l -> List.filter f l = [].
Proof.
  intros Hfg Hl. induction Hl as [|ev l Hev _ IH]; [done|].
  simpl. by rewrite (Hfg _ Hev), IH.
Qed.

Lemma set_lastScheduled_protectOOM count (it0 : SessId) e s :
  protectOOM (sessionOf (set_store (alter (set_lastScheduled count) it0 (store e)) e) s)
  = protectOOM (sessionOf e s).
Proof.
  unfold sessionOf. simpl. rewrite lookup_alter.
  case_decide as Heq; [subst|done]. by destruct (store e !! s).
Qed.

(** The scheduling of the candidates writes [lastScheduled] only: the
    [protectOOM] flag of a session changes only if the policy changes it. *)
Lemma scheduleCandidates_protectOOM s cands remainingCount scheduled e :
  (forall it0 e', protectOOM (sessionOf (maybeScheduleFrom X it0 e').2 s)
                  = protectOOM (sessionOf e' s)) ->
  protectOOM (sessionOf (final (scheduleCandidates X cands remainingCount scheduled e)) s)
  = protectOOM (sessionOf e s).
Proof.
  intros Hpol. revert remainingCount scheduled e.
  induction cands as [|it0 cands IH]; intros rc sch e; [reflexivity|].
  simpl. unfold callM, bindM at 1.
  specialize (Hpol it0 e).
  destruct (maybeScheduleFrom X it0 e) as [[count shouldContinue] e1].
  simpl in Hpol. run_m.
  pose proof (set_lastScheduled_protectOOM count it0 e1 s) as Hset.
  destruct shouldContinue; simpl; [|by rewrite Hset, Hpol].
  specialize (IH (rc + length (bgQueue (sessionOf
                (set_store (alter (set_lastScheduled count) it0 (store e1)) e1) it0)))%nat
               (sch + lastScheduled (sessionOf
                (set_store (alter (set_lastScheduled count) it0 (store e1)) e1) it0))%nat
               (set_store (alter (set_lastScheduled count) it0 (store e1)) e1)).
  destruct (scheduleCandidates X cands _ _ _) as [[o e2] t2].
  simpl in *. by rewrite IH, Hset, Hpol.
Qed.

(** C9.  Every iteration consists of the collection of changes, the
    preparation loop, the policy's part and the paging check, in that
    order, and the preparation loop leaves every live session,
    force-evicted or not, with [protectOOM] equal to "more than one session
    is live": that is the state the policy is handed.  Hence a session that
    [doPaging] has force-evicted ([protectOOM] cleared, [forceEvicted] set)
    has [protectOOM] set again after that loop whenever more than one
    session is live.  When the policy itself leaves the flag of the session
    alone, the session still has that value when the iteration reaches its
    paging check.  A loop that has not been told to exit begins with exactly
    such an iteration. *)
Theorem prepare_assigns_protectOOM e s it :
  let e0 := final (collectChanges e) in
  let enable := (1 <? length (m_sessions e0))%nat in
  let p := prepareSessions enable (m_sessions e0) 0 e0 in
  let e1 := notifyPreSchedulingIteration X (result (collectChanges e)) (final p) in
  let sc := scheduleCandidates X (candidates e1) 0 0 e1 in
  let w := pagingOrWait X (result p) (result sc).1 (result sc).2 (final sc) in
  s ∈ m_sessions e0 ->
  store e0 !! s = Some it ->
  protectOOM (sessionOf (final p) s) = enable
  /\ forceEvicted (sessionOf (final p) s) = forceEvicted it
  /\ (protectOOM it = false -> forceEvicted it = true ->
      (1 < length (m_sessions e0))%nat ->
      protectOOM (sessionOf (final p) s) = true)
  /\ iterationHead X e = ((result p, (result sc).1, (result sc).2), final sc, trace p)
  /\ scheduleIteration X e = (result w, final w, trace p ++ trace w)
  /\ ((forall cs e', protectOOM (sessionOf (notifyPreSchedulingIteration X cs e') s)
                     = protectOOM (sessionOf e' s)) ->
      (forall it0 e', protectOOM (sessionOf (maybeScheduleFrom X it0 e').2 s)
                      = protectOOM (sessionOf e' s)) ->
      protectOOM (sessionOf (final (iterationHead X e)) s) = enable)
  /\ (m_shouldExit e = false ->
      forall n,
        let l := scheduleLoop X n (final w) in
        scheduleLoop X (S n) e = (result l, final l, trace p ++ trace w ++ trace l)).
Proof.
  intros e0 enable p e1 sc w Hs Hit.
  destruct (prepareSessions_session enable (m_sessions e0) 0 e0 s it Hit)
    as (Hst & _).
  fold p in Hst. rewrite bool_decide_eq_true_2 in Hst by done.
  assert (Hflag : protectOOM (sessionOf (final p) s) = enable).
  { unfold sessionOf. by rewrite Hst. }
  assert (Hhead : iterationHead X e
                  = ((result p, (result sc).1, (result sc).2), final sc, trace p)).
  { apply iterationHead_run. }
  split_and!.
  - exact Hflag.
  - unfold sessionOf. by rewrite Hst.
  - intros _ _ Hlen. rewrite Hflag. subst enable. by apply Nat.ltb_lt.
  - exact Hhead.
  - unfold scheduleIteration, bindM. rewrite Hhead. fold w.
    by destruct w as [[b e2] t2].
  - intros Hnot Hpol. rewrite Hhead. unfold final at 1. cbn [fst snd].
    subst sc. rewrite scheduleCandidates_protectOOM by exact Hpol.
    subst e1. by rewrite Hnot.
  - intros Hexit n l. cbn [scheduleLoop]. unfold bindM at 1, getM. cbn beta iota.
    rewrite Hexit. unfold scheduleIteration, bindM. rewrite Hhead. fold w.
    destruct w as [[b e2] t2]. cbn [result final trace fst snd] in l. subst l.
    destruct (scheduleLoop X n e2) as [[u e3] t3]. cbn [result final trace fst snd].
    by rewrite app_nil_l, app_assoc.
Qed.

(** C8.  Let [s] be a live session of an iteration whose [forceEvicted]
    flag is set.  The cancellations of the iteration that concern [s] are
    exactly one [cancel] per entry of its back queue followed by its front
    queue, in order; so an operation that occurs once there is cancelled
    exactly once.  After the preparation loop both queues of [s] are
    empty: the policy, which dispatches from the back queue, finds none of
    these operations. *)
Theorem forceEvicted_queue_cancelled e s it :
  let e0 := final (collectChanges e) in
  let ops := bgQueue it ++ queue it in
  let p := prepareSessions (1 <? length (m_sessions e0))%nat (m_sessions e0) 0 e0 in
  let r := scheduleIteration X e in
  s ∈ m_sessions e0 ->
  store e0 !! s = Some it ->
  forceEvicted it = true ->
  List.filter (is_cancel_of s) (trace r) = map (EvCancel s) ops
  /\ (forall o, NoDup ops -> o ∈ ops ->
        length (List.filter (fun ev => bool_decide (ev = EvCancel s o)) (trace r))
        = 1%nat)
  /\ bgQueue (sessionOf (final p) s) = []
  /\ queue (sessionOf (final p) s) = [].
Proof.
  intros e0 ops p r Hs Hit Hfe.
  destruct (prepareSessions_session (1 <? length (m_sessions e0))%nat
              (m_sessions e0) 0 e0 s it Hit) as (Hst & Hf & _).
  fold p in Hst, Hf. rewrite bool_decide_eq_true_2 in Hst, Hf by done.
  assert (Hr : List.filter (is_cancel_of s) (trace r) = map (EvCancel s) ops).
  { assert (Hno : forall ev,
               is_doPaging ev || is_singleSessionOOM ev || paging_event ev = true ->
               is_cancel_of s ev = false) by (by intros []).
    assert (Hc : forall rc sch e',
               List.filter (is_cancel_of s) (trace (checkPaging X rc sch e')) = []).
    { intros. apply (filter_excluded _ _ _ Hno (checkPaging_trace _ _ _)). }
    assert (Hh : trace (iterationHead X e) = trace p).
    { rewrite iterationHead_run. reflexivity. }
    subst r. rewrite scheduleIteration_run. cbv zeta.
    unfold trace at 1. cbn [snd].
    rewrite !List.filter_app, Hc, Hh, Hf.
    unfold cancellations. rewrite Hfe. fold ops.
    destruct (result (checkPaging X _ _ _));
      [cbn [List.filter]|rewrite waits_no_cancel]; by rewrite app_nil_r. }
  split; [exact Hr|]. split.
  - intros o Hnd Ho.
    assert (forall l, List.filter (fun ev => bool_decide (ev = EvCancel s o)) l
              = List.filter (fun ev => bool_decide (ev = EvCancel s o))
                  (List.filter (is_cancel_of s) l)) as Hff.
    { induction l as [|ev l IH]; [done|]. simpl.
      destruct (bool_decide (ev = EvCancel s o)) eqn:Heq.
      - apply bool_decide_eq_true in Heq. subst ev. simpl.
        rewrite bool_decide_eq_true_2 by done. simpl.
        rewrite bool_decide_eq_true_2 by done. by rewrite IH.
      - destruct (is_cancel_of s ev); simpl; [by rewrite Heq|done]. }
    rewrite Hff, Hr. clear -Hnd Ho.
    induction ops as [|o' ops IH]; [by apply elem_of_nil in Ho|].
    apply NoDup_cons in Hnd as (Hnotin & Hnd). simpl.
    apply elem_of_cons in Ho as [<-|Ho].
    + rewrite bool_decide_eq_true_2 by done. simpl. f_equal.
      clear IH. induction ops as [|o2 ops IH]; [done|]. simpl.
      apply not_elem_of_cons in Hnotin as (Hne & Hnotin).
      apply NoDup_cons in Hnd as (_ & Hnd).
      rewrite bool_decide_eq_false_2 by congruence. by apply IH.
    + rewrite bool_decide_eq_false_2; [by apply IH|].
      intros Heq. injection Heq as ->. done.
  - unfold sessionOf. rewrite Hst. simpl. by rewrite Hfe.
Qed.



End Properties.

(** ** Further properties *)

Section MoreProperties.
Context {C : Components} (X : Collaborators C) (P : MonitorProxy C).
Implicit Types (e : ExecutionEngine C) (rctx : ResourceContext)
  (opItem : OperationItem) (s : SessId) (ev : Event).


(** *** Session queues *)

Lemma pushToSessionQueue_live opItem e it :
  store e !! sess opItem = Some it ->
  pushToSessionQueue opItem e =
    (tt,
     set_store (<[ sess opItem := set_queues (queue it ++ [opItem]) (bgQueue it) it ]>
                  (store e)) e,
     [EvNotify]).
Proof.
  intros Hit. unfold pushToSessionQueue. run_m. rewrite Hit. simpl.
  do 2 f_equal. f_equal.
  apply map_eq. intros k. rewrite lookup_alter, lookup_insert.
  case_decide; [subst; by rewrite Hit|done].
Qed.

Lemma enqueueAll_live s tasks e it :
  store e !! s = Some it ->
  enqueueAll s tasks e =
    (tt,
     set_store (<[ s := set_queues (queue it ++ map (mkOperationItem s) tasks)
                          (bgQueue it) it ]> (store e)) e,
     map (fun _ => EvNotify) tasks).
Proof.
  revert e it. induction tasks as [|task tasks IH]; intros e it Hit.
  - unfold retM. simpl. rewrite app_nil_r. do 2 f_equal.
    rewrite insert_id; [by destruct e|]. rewrite Hit. by destruct it.
  - cbn [enqueueAll]. unfold bindM, enqueueOperation.
    rewrite (pushToSessionQueue_live (mkOperationItem s task) e it Hit). cbn [sess].
    set (it1 := set_queues (queue it ++ [mkOperationItem s task]) (bgQueue it) it).
    set (e1 := set_store (<[s:=it1]> (store e)) e).
    assert (H1 : store e1 !! s = Some it1) by apply lookup_insert_eq.
    rewrite (IH e1 it1 H1). simpl. do 2 f_equal. unfold set_store. simpl.
    rewrite insert_insert_eq. do 2 f_equal. unfold it1, set_queues. simpl.
    by rewrite <- app_assoc.
Qed.

(** X1.  Enqueueing tasks on a live session appends them to its front queue
    in submission order, behind what was already there, notifies the
    scheduler once per task, and leaves the back queue, the flags, the
    tickets, the live list and every other session as they were: the engine
    after the calls is the engine before them with that one front queue
    extended, and nothing else is changed. *)
Theorem enqueue_is_fifo s tasks e it :
  store e !! s = Some it ->
  let r := enqueueAll s tasks e in
  queue (sessionOf (final r) s) = queue it ++ map (mkOperationItem s) tasks
  /\ same_but_tickets (set_queues [] [] (sessionOf (final r) s)) (set_queues [] [] it)
  /\ tickets (sessionOf (final r) s) = tickets it
  /\ (forall s', s' <> s -> store (final r) !! s' = store e !! s')
  /\ m_sessions (final r) = m_sessions e
  /\ trace r = map (fun _ => EvNotify) tasks
  /\ bgQueue (sessionOf (final r) s) = bgQueue it
  /\ store (final r) !! s
     = Some (set_queues (queue it ++ map (mkOperationItem s) tasks) (bgQueue it) it)
  /\ final r
     = mkExecutionEngine
         (<[ s := set_queues (queue it ++ map (mkOperationItem s) tasks) (bgQueue it) it ]>
            (store e))
         (m_sessions e) (m_newSessions e) (m_deletedSessions e)
         (m_resMonitor e) (m_pool e) (m_runningTasks e) (m_noPagingRunningTasks e)
         (m_shouldExit e) (scheduler e) (candidates e).
Proof.
  intros Hit r. subst r. rewrite (enqueueAll_live s tasks e it Hit).
  unfold final, trace, sessionOf. simpl. rewrite lookup_insert_eq. simpl.
  split_and!; try done.
  intros s' Hne. by rewrite lookup_insert_ne.
Qed.

(** X2.  An operation pushed for a session that is gone is dropped: nothing
    changes and the scheduler is not notified. *)
Theorem enqueue_on_expired_session_is_dropped s tasks e :
  store e !! s = None ->
  enqueueAll s tasks e = (tt, e, []).
Proof.
  intros Hs. induction tasks as [|task tasks IH]; [reflexivity|].
  cbn [enqueueAll]. unfold enqueueOperation, pushToSessionQueue, bindM, lock, retM.
  simpl. rewrite Hs. by rewrite IH.
Qed.


Lemma prepareSession_result enable it0 e it :
  store e !! it0 = Some it ->
  result (prepareSession enable it0 e) = length (bgQueue (prepared enable it)).
Proof.
  intros Hit. unfold prepareSession. run_m.
  unfold sessionOf. simpl. rewrite lookup_alter_eq, Hit. simpl.
  destruct (forceEvicted it) eqn:Hfe; simpl.
  - rewrite cancelAll_run. simpl. by rewrite !lookup_alter_eq, Hit.
  - by rewrite lookup_alter_eq, Hit.
Qed.

(** X3.  Tasks enqueued on a live session that is not force-evicted reach
    its back queue at the next preparation in submission order, behind the
    operations that were already queued; the front queue is left empty,
    nothing is cancelled, and the preparation counts exactly that back
    queue. *)
Theorem enqueued_tasks_reach_back_queue_in_order enable s tasks e it :
  store e !! s = Some it ->
  forceEvicted it = false ->
  let r := (enqueueAll s tasks ;; prepareSession enable s) e in
  bgQueue (sessionOf (final r) s)
    = bgQueue it ++ queue it ++ map (mkOperationItem s) tasks
  /\ queue (sessionOf (final r) s) = []
  /\ result r = length (bgQueue it ++ queue it ++ map (mkOperationItem s) tasks)
  /\ List.filter is_cancel (trace r) = [].
Proof.
  intros Hit Hfe r. subst r. unfold bindM.
  rewrite (enqueueAll_live s tasks e it Hit).
  set (it1 := set_queues (queue it ++ map (mkOperationItem s) tasks) (bgQueue it) it).
  set (e1 := set_store (<[s:=it1]> (store e)) e).
  assert (H1 : store e1 !! s = Some it1) by apply lookup_insert_eq.
  pose proof (prepareSession_result enable s e1 it1 H1) as Hres.
  destruct (prepareSession_live enable s e1 it1 H1) as (Hst & _ & _ & Htr).
  destruct (prepareSession enable s e1) as [[n e2] t2].
  unfold result, final, trace, sessionOf in *. simpl in *.
  rewrite Hst, Hres, Htr. unfold cancellations, prepared. simpl. rewrite Hfe.
  split_and!; try done.
  clear. induction tasks; [done|]. simpl. done.
Qed.

Lemma prepareSessions_count enable items total e :
  NoDup items ->
  (forall s, s ∈ items -> is_Some (store e !! s)) ->
  result (prepareSessions enable items total e)
    = (total + sum_list (map (fun s => length (bgQueue (prepared enable (sessionOf e s))))
                            items))%nat.
Proof.
  revert total e. induction items as [|it0 items IH]; intros total e Hnd Hin.
  - simpl. unfold result, retM. simpl. lia.
  - apply NoDup_cons in Hnd as (Hnotin & Hnd).
    destruct (Hin it0 ltac:(left)) as [it Hit].
    cbn [prepareSessions]. unfold bindM.
    pose proof (prepareSession_result enable it0 e it Hit) as Hres.
    destruct (prepareSession_live enable it0 e it Hit) as (_ & Hoth & _ & _).
    destruct (prepareSession enable it0 e) as [[n e1] t1].
    unfold result, final in Hres, Hoth. simpl in Hres, Hoth.
    assert (Hin1 : forall s, s ∈ items -> is_Some (store e1 !! s)).
    { intros s Hs. rewrite Hoth; [apply Hin; by right|]. intros ->. done. }
    specialize (IH (total + n)%nat e1 Hnd Hin1).
    destruct (prepareSessions enable items (total + n) e1) as [[n2 e2] t2].
    unfold result in *. cbn [fst snd] in *. rewrite IH, Hres.
    cbn [map sum_list sum_list_with].
    assert (sessionOf e it0 = it) as -> by (unfold sessionOf; by rewrite Hit).
    assert (map (fun s => length (bgQueue (prepared enable (sessionOf e1 s)))) items
            = map (fun s => length (bgQueue (prepared enable (sessionOf e s)))) items) as ->.
    { apply map_ext_in. intros s Hs. apply list_elem_of_In in Hs.
      unfold sessionOf. rewrite Hoth; [done|]. intros ->. done. }
    unfold id, prepared. cbn [bgQueue]. lia.
Qed.

(** X4.  With distinct live sessions, the [totalRemainingCount] of an
    iteration is the number of operations in the back queues of the live
    sessions once they are prepared; it is zero, the condition under which
    the loop waits for work, exactly when all those queues are empty. *)
Theorem totalRemainingCount_counts_back_queues e :
  let e0 := final (collectChanges e) in
  let p := prepareSessions (1 <? length (m_sessions e0))%nat (m_sessions e0) 0 e0 in
  NoDup (m_sessions e0) ->
  (forall s, s ∈ m_sessions e0 -> is_Some (store e0 !! s)) ->
  result p = pendingCount (final p) (m_sessions e0)
  /\ (result p = 0%nat
      <-> forall s, s ∈ m_sessions e0 -> bgQueue (sessionOf (final p) s) = []).
Proof.
  intros e0 p Hnd Hin.
  assert (Hfin : forall s, s ∈ m_sessions e0 ->
            bgQueue (sessionOf (final p) s)
            = bgQueue (prepared (1 <? length (m_sessions e0))%nat (sessionOf e0 s))).
  { intros s Hs. destruct (Hin s Hs) as [it Hit].
    destruct (prepareSessions_session (1 <? length (m_sessions e0))%nat
                (m_sessions e0) 0 e0 s it Hit) as (Hst & _).
    fold p in Hst. rewrite bool_decide_eq_true_2 in Hst by done.
    unfold sessionOf. by rewrite Hst, Hit. }
  assert (Hcount : result p = pendingCount (final p) (m_sessions e0)).
  { subst p. rewrite prepareSessions_count by done. simpl.
    unfold pendingCount. f_equal. apply map_ext_in. intros s Hs.
    apply list_elem_of_In in Hs. by rewrite Hfin. }
  split; [exact Hcount|]. rewrite Hcount. unfold pendingCount.
  generalize (final p). generalize (m_sessions e0). clear.
  intros l ef. induction l as [|s l IH]; simpl.
  - split; [|done]. intros _ s Hs. by apply elem_of_nil in Hs.
  - split.
    + intros Hz s' Hs'. apply elem_of_cons in Hs' as [->|Hs'].
      * apply length_zero_iff_nil. lia.
      * apply IH; [lia|done].
    + intros Hall. rewrite (Hall s) by left. simpl. apply IH.
      intros s' Hs'. apply Hall. by right.
Qed.


(** *** Session changes *)

(** X5.  The collection of changes makes the live list the old live list
    without the deleted sessions, in its old order, followed by the pending
    additions in insertion order, which [numAddedSessions] counts; both
    pending collections are left empty and no session object is touched.
    When there are additions, the change set delimits them: they are the
    live list from [addedSessionBegin] to [addedSessionEnd], its end. *)
Theorem changeset_delimits_added_sessions e :
  let r := collectChanges e in
  let cs := result r in
  let live := m_sessions (final r) in
  live = filter (fun s => s ∉ m_deletedSessions e) (m_sessions e) ++ m_newSessions e
  /\ numAddedSessions cs = length (m_newSessions e)
  /\ deletedSessions cs = m_deletedSessions e
  /\ m_newSessions (final r) = []
  /\ m_deletedSessions (final r) = ∅
  /\ store (final r) = store e
  /\ (m_newSessions e <> [] ->
      take (addedSessionBegin cs) live
        = filter (fun s => s ∉ m_deletedSessions e) (m_sessions e)
      /\ drop (addedSessionBegin cs) live = m_newSessions e
      /\ addedSessionEnd cs = length live
      /\ (addedSessionBegin cs < addedSessionEnd cs)%nat).
Proof.
  intros r cs live. subst live cs r. rewrite collectChanges_run.
  unfold result, final. simpl.
  set (kept := filter (fun s => s ∉ m_deletedSessions e) (m_sessions e)).
  split_and!; try done.
  intros Hne. split_and!; try done.
  - by rewrite take_app_length.
  - by rewrite drop_app_length.
  - rewrite length_app. destruct (m_newSessions e); [done|]. simpl. lia.
Qed.

Lemma insertSession_run s e :
  insertSession s e =
    (tt, set_sessionLists (m_sessions e) (m_newSessions e ++ [s]) (m_deletedSessions e) e,
     [EvNotify]).
Proof. reflexivity. Qed.

Lemma deleteSession_run s e :
  deleteSession s e =
    (tt, set_sessionLists (m_sessions e) (m_newSessions e) ({[ s ]} ∪ m_deletedSessions e) e,
     [EvNotify]).
Proof. reflexivity. Qed.

(** X6.  A session handed to [insertSession] is live after the next
    collection of changes, as the last session of the live list, whether or
    not its deletion is pending; the sessions before it are those the
    collection would have kept and added anyway. *)
Theorem inserted_session_becomes_last s e :
  let r := (insertSession s ;; collectChanges) e in
  m_sessions (final r) = m_sessions (final (collectChanges e)) ++ [s]
  /\ numAddedSessions (result r) = S (length (m_newSessions e))
  /\ trace r = [EvNotify].
Proof.
  intros r. subst r. unfold bindM. rewrite insertSession_run, !collectChanges_run.
  unfold result, final, trace. simpl. rewrite length_app, app_assoc. simpl.
  split_and!; [done|lia|done].
Qed.

(** X7.  After [deleteSession] and the next collection of changes the
    session is live exactly when its insertion was pending too: deletions
    are taken out of the live list before the additions are appended, so a
    session that is deleted before the loop has picked it up stays.  Every
    other session is live exactly as without the deletion. *)
Theorem deleted_session_leaves_unless_pending s e :
  let r := (deleteSession s ;; collectChanges) e in
  (s ∈ m_sessions (final r) <-> s ∈ m_newSessions e)
  /\ (forall s', s' <> s ->
        (s' ∈ m_sessions (final r) <-> s' ∈ m_sessions (final (collectChanges e))))
  /\ m_deletedSessions (final r) = ∅.
Proof.
  intros r. subst r. unfold bindM. rewrite deleteSession_run, !collectChanges_run.
  unfold result, final, trace. simpl. split_and!; [| |done].
  - rewrite elem_of_app, list_elem_of_filter. split; [|by right].
    intros [(Hn & _)|?]; [|done]. exfalso. apply Hn.
    apply elem_of_union_l. by apply elem_of_singleton.
  - intros s' Hne. rewrite !elem_of_app, !list_elem_of_filter.
    split; (intros [(Hn & Hs)|Hs]; [left; split; [|done]|by right]).
    + intros HD. apply Hn. by apply elem_of_union_r.
    + intros [Hx|Hx]%elem_of_union; [|done].
      apply elem_of_singleton in Hx. done.
Qed.

(** X8.  The live list stays free of duplicates: if it is, if the pending
    additions are, and if no pending addition is already live, then the live
    list after the collection of changes has no duplicates either. *)
Theorem live_sessions_stay_distinct e :
  NoDup (m_sessions e) ->
  NoDup (m_newSessions e) ->
  (forall s, s ∈ m_newSessions e -> s ∉ m_sessions e) ->
  NoDup (m_sessions (final (collectChanges e))).
Proof.
  intros Hl Hn Hdis. rewrite collectChanges_run. unfold final. simpl.
  apply NoDup_app. split_and!; [by apply NoDup_filter| |done].
  intros s Hs Hs'. apply list_elem_of_filter in Hs as (_ & Hs).
  by apply (Hdis s).
Qed.


(** *** Running tasks *)

Lemma poolClosure_live opItem e it :
  store e !! sess opItem = Some it ->
  let e1 := set_runningTasks (m_runningTasks e + 1) e in
  poolClosure opItem e =
    (tt,
     if isAsync (op opItem) then e1
     else set_noPagingRunningTasks (m_noPagingRunningTasks e1 + 1) e1,
     [EvRun opItem]).
Proof.
  intros Hit e1. unfold poolClosure, taskRunning, bindM, lock, modifyM, emit, retM.
  rewrite Hit. by destruct (isAsync (op opItem)).
Qed.

(** X9.  A task that a worker starts and that then reports [done] leaves
    both task counters where they were, whether it is synchronous or not;
    in between, the task was counted and run once.  The closure of a task
    whose session is gone does nothing at all: the task is not run. *)
Theorem started_task_done_restores_counters opItem e :
  let r := (poolClosure opItem ;; cbs_done X opItem) e in
  match store e !! sess opItem with
  | Some _ =>
      m_runningTasks (final r) = m_runningTasks e
      /\ m_noPagingRunningTasks (final r) = m_noPagingRunningTasks e
      /\ m_runningTasks (final (poolClosure opItem e)) = m_runningTasks e + 1
      /\ List.filter (fun ev => bool_decide (ev = EvRun opItem)) (trace (poolClosure opItem e))
         = [EvRun opItem]
  | None => poolClosure opItem e = (tt, e, [])
  end.
Proof.
  intros r. subst r.
  destruct (store e !! sess opItem) as [it|] eqn:Hit.
  - unfold bindM. rewrite (poolClosure_live opItem e it Hit).
    set (e1 := if isAsync (op opItem) then _ else _).
    assert (H1 : store e1 !! sess opItem = Some it).
    { subst e1. by destruct (isAsync (op opItem)). }
    assert (Hr1 : m_runningTasks e1 = m_runningTasks e + 1).
    { subst e1. by destruct (isAsync (op opItem)). }
    assert (Hn1 : m_noPagingRunningTasks e1
                  = if isAsync (op opItem) then m_noPagingRunningTasks e
                    else m_noPagingRunningTasks e + 1).
    { subst e1. by destruct (isAsync (op opItem)). }
    unfold cbs_done, bindM, retM.
    destruct (taskStopped_final X opItem false e1 it H1) as (_ & Hr & Hn & _).
    destruct (taskStopped X opItem false e1) as [[o e2] t2].
    unfold final, trace in *. simpl in *.
    rewrite Hr, Hn, Hr1, Hn1, bool_decide_eq_true_2 by done.
    split_and!; try done; [lia|]. destruct (isAsync (op opItem)); lia.
  - unfold poolClosure, bindM, lock, retM. by rewrite Hit.
Qed.

(** X10.  A started task that reports a memory failure: when its session
    protects against OOM, both task counters are back where they were
    before the task started, and the task, its staging released, is the
    last entry of the session's front queue, to be retried; when the session
    does not, the callback returns false and the task is still counted as
    running, the failure being left to the task. *)
Theorem started_task_memFailure_accounting opItem e it :
  store e !! sess opItem = Some it ->
  let r := (poolClosure opItem ;; cbs_memFailure X opItem) e in
  if protectOOM it then
    result r = true
    /\ m_runningTasks (final r) = m_runningTasks e
    /\ m_noPagingRunningTasks (final r) = m_noPagingRunningTasks e
    /\ exists requeued,
         queue (sessionOf (final r) (sess opItem)) = queue it ++ [requeued]
         /\ task_id (op requeued) = task_id (op opItem)
         /\ hasStaging (resourceContext (op requeued)) = false
  else
    result r = false
    /\ m_runningTasks (final r) = m_runningTasks e + 1
    /\ queue (sessionOf (final r) (sess opItem)) = queue it.
Proof.
  intros Hit r. subst r. unfold bindM.
  rewrite (poolClosure_live opItem e it Hit).
  set (e1 := if isAsync (op opItem) then _ else _).
  assert (H1 : store e1 !! sess opItem = Some it).
  { subst e1. by destruct (isAsync (op opItem)). }
  assert (Hr1 : m_runningTasks e1 = m_runningTasks e + 1).
  { subst e1. by destruct (isAsync (op opItem)). }
  assert (Hn1 : m_noPagingRunningTasks e1
                = if isAsync (op opItem) then m_noPagingRunningTasks e
                  else m_noPagingRunningTasks e + 1).
  { subst e1. by destruct (isAsync (op opItem)). }
  unfold cbs_memFailure, bindM, lock. rewrite H1.
  destruct (protectOOM it) eqn:Hp; simpl.
  - destruct (taskStopped_final X opItem true e1 it H1)
      as ((it' & Hit' & Ht & Hq & Hbg & _) & Hr & Hn & Hres & _).
    destruct (taskStopped X opItem true e1) as [[o e2] t2].
    unfold final, result, trace in *. simpl in *.
    assert (Hs : sess o = sess opItem).
    { rewrite Hres. by destruct (hasStaging _). }
    unfold pushToSessionQueue, bindM, lock, retM, updSession, modifyM, emit.
    rewrite Hs, Hit'. simpl. unfold sessionOf. simpl.
    rewrite lookup_alter_eq, Hit'. simpl. rewrite Hq, Hr, Hn, Hr1, Hn1.
    split_and!; [done|lia|destruct (isAsync (op opItem)); lia|].
    exists o. split; [done|]. rewrite Hres. unfold stopped_item.
    by destruct (hasStaging _) eqn:?.
  - unfold retM, final, result, sessionOf. simpl. rewrite H1, Hr1. done.
Qed.


(** *** More on paging *)

Lemma volunteerSessions_without_callbacks target cands released e :
  (forall c, c ∈ cands -> pagingCb (sessionOf e c.2) = false) ->
  volunteerSessions X target cands released e = ((None, released), e, []).
Proof.
  induction cands as [|[u s] cands IH]; intros Hcb; [reflexivity|].
  simpl. unfold bindM at 1, getM. simpl.
  destruct (decide (tickets (sessionOf e s) = ∅)); [reflexivity|].
  pose proof (Hcb (u, s) ltac:(left)) as Hs. simpl in Hs. rewrite Hs. simpl.
  rewrite IH; [reflexivity|].
  intros c Hc. apply Hcb. by right.
Qed.

(** X11.  [doPaging] gives up without doing anything, neither asking nor
    evicting anybody nor staging any memory, when fewer than two sessions
    are live and also when no live session has registered paging callbacks;
    it then returns false.  ([std::sort] is taken to permute its input.) *)
Theorem doPaging_gives_up_untouched spec target e :
  (forall l, Permutation (std_sort X l) l) ->
  (length (m_sessions e) <= 1)%nat
  \/ (forall s, s ∈ m_sessions e -> pagingCb (sessionOf e s) = false) ->
  doPaging X spec target e = (false, e, []).
Proof.
  intros Hperm Hcase. rewrite doPaging_run. cbv zeta.
  set (cands := pagingCandidates X spec e).
  assert (Hp : Permutation cands
                 (map (fun pSess => (resourceUsage (sessionOf e pSess)
                                       (mkResourceTag MEMORY spec), pSess))
                      (m_sessions e))) by apply Hperm.
  destruct Hcase as [Hlen|Hcb].
  - assert ((length cands <=? 1)%nat = true) as ->; [|done].
    apply Nat.leb_le. rewrite (Permutation_length Hp), length_map. exact Hlen.
  - destruct (length cands <=? 1)%nat; [done|].
    assert (Hall : forall c, c ∈ cands -> pagingCb (sessionOf e c.2) = false).
    { intros c Hc. rewrite Hp in Hc. apply list_elem_of_fmap in Hc as (s & -> & Hs).
      by apply Hcb. }
    rewrite volunteerSessions_without_callbacks.
    + rewrite forceEvictOne_run.
      destruct (find _ cands) as [[u s]|] eqn:Hf; [|done].
      apply find_some in Hf as (Hin & Hcb'). apply list_elem_of_In in Hin.
      rewrite (Hall _ Hin) in Hcb'. discriminate.
    + intros c Hc. apply Hall. destruct cands; [done|]. by right.
Qed.

Lemma volunteerVictims_requests pSess target victims released e :
  Forall (well_staged_request target)
         (trace (volunteerVictims X pSess target victims released e)).
Proof.
  revert released e. induction victims as [|[usage victim] victims IH];
    intros released e; simpl.
  - constructor.
  - unfold bindM at 1. rewrite makeResourceContext_run.
    destruct (preAllocate X _ (m_resMonitor e)) as [[t|] r]; simpl; [|constructor].
    unfold bindM, emit, callM, retM. simpl.
    destruct (volunteer X pSess victim _ _) as [n e1]. simpl.
    destruct (0 <? size_add released n)%N; simpl.
    + by repeat constructor.
    + specialize (IH (size_add released n) e1).
      destruct (volunteerVictims X pSess target victims _ e1) as [[o e2] t2].
      unfold trace in *. simpl in *. by constructor.
Qed.

Lemma volunteerSessions_requests target cands released e :
  Forall (well_staged_request target)
         (trace (volunteerSessions X target cands released e)).
Proof.
  revert released e. induction cands as [|[u pSess] cands IH];
    intros released e; simpl.
  - constructor.
  - unfold bindM at 1, getM. simpl.
    destruct (decide (tickets (sessionOf e pSess) = ∅)); simpl; [constructor|].
    destruct (pagingCb (sessionOf e pSess)); simpl.
    2:{ specialize (IH released e).
        destruct (volunteerSessions X target cands released e) as [[o2 e2] t2].
        unfold trace in *. simpl in *. exact IH. }
    pose proof (volunteerVictims_requests pSess target
                  (sortVictim X (tickets (sessionOf e pSess)) (m_resMonitor e))
                  released e) as Hv.
    unfold bindM.
    destruct (volunteerVictims X pSess target _ released e) as [[[o rel] e1] t1].
    unfold trace in Hv. simpl in Hv.
    destruct o as [b|]; simpl; [by rewrite app_nil_r|].
    specialize (IH rel e1).
    destruct (volunteerSessions X target cands rel e1) as [[o2 e2] t2].
    unfold trace in *. simpl in *. by apply Forall_app.
Qed.

(** X12.  Every [volunteer] request of [doPaging] hands the session a
    resource context of its own that has just been staged successfully on
    the target device: the session is never asked to page out without room
    reserved to page to. *)
Theorem volunteer_requests_come_with_staging spec target e :
  Forall (well_staged_request target) (trace (doPaging X spec target e)).
Proof.
  rewrite doPaging_run. cbv zeta.
  destruct (length _ <=? 1)%nat; [constructor|].
  pose proof (volunteerSessions_requests target
                (tail (pagingCandidates X spec e)) 0%N e) as Hv.
  destruct (volunteerSessions X target _ 0%N e) as [[[o rel] e1] t1].
  unfold trace in Hv. simpl in Hv.
  destruct o as [b|]; [done|].
  rewrite forceEvictOne_run. destruct (find _ _) as [[??]|]; unfold trace; simpl.
  - apply Forall_app. split; [done|]. by repeat constructor.
  - by rewrite app_nil_r.
Qed.

(** X13.  The result of [doPaging] tells what it did: a call that returns
    false has evicted nobody; a force eviction is the last thing a call
    does and makes it return true; so the callbacks invoked by a call are
    volunteer requests followed by at most one force eviction. *)
Theorem doPaging_result_and_eviction spec target e :
  let r := doPaging X spec target e in
  (result r = false -> List.filter is_forceEvicted (trace r) = [])
  /\ (forall s, EvForceEvicted s ∈ trace r ->
        result r = true
        /\ exists requests,
             trace r = requests ++ [EvForceEvicted s]
             /\ Forall (fun ev => is_volunteer ev = true) requests).
Proof.
  intros r. subst r. rewrite doPaging_run. cbv zeta.
  destruct (length _ <=? 1)%nat.
  { split; [done|]. intros s Hs. by apply elem_of_nil in Hs. }
  pose proof (volunteerSessions_trace X target
                (tail (pagingCandidates X spec e)) 0%N e) as Hv.
  destruct (volunteerSessions X target _ 0%N e) as [[[o rel] e1] t1].
  unfold trace in Hv. simpl in Hv.
  assert (Hvol : Forall (fun ev => is_volunteer ev = true) t1).
  { eapply Forall_impl; [exact Hv|]. intros ev (s & _ & Hs).
    by destruct ev. }
  assert (Hnf : forall s, EvForceEvicted s ∉ t1).
  { intros s Hs. rewrite Forall_forall in Hvol. by apply Hvol in Hs. }
  assert (Hfil : List.filter is_forceEvicted t1 = []).
  { clear -Hvol. induction Hvol as [|ev l Hev _ IH]; [done|].
    simpl. destruct ev; try discriminate. exact IH. }
  destruct o as [b|].
  - unfold result, trace. simpl. split; [done|].
    intros s Hs. by apply Hnf in Hs.
  - rewrite forceEvictOne_run.
    destruct (find _ _) as [[u s0]|]; unfold result, trace; simpl.
    + split; [discriminate|]. intros s Hs.
      apply elem_of_app in Hs as [Hs|Hs]; [by apply Hnf in Hs|].
      apply list_elem_of_singleton in Hs. injection Hs as ->.
      split; [done|]. by exists t1.
    + rewrite app_nil_r. split; [done|]. intros s Hs. by apply Hnf in Hs.
Qed.


(** *** Staging *)

(** X14.  A resource context made by the engine and then dropped gives back
    exactly what it staged: when staging succeeded, the ticket it was given
    is freed once (and taken off the session if the monitor reports no other
    usage); when staging failed, the context holds the invalid ticket 0 and
    dropping it frees nothing and touches no session. *)
Theorem dropped_context_frees_its_staging s spec res e :
  let r := (let* rctx := makeResourceContext X s spec res in
            destroyResourceContext X rctx) e in
  let made := result (makeResourceContext X s spec res e) in
  match (preAllocate X res (m_resMonitor e)).1 with
  | Some t =>
      let mon' := freeStaging X t (preAllocate X res (m_resMonitor e)).2 in
      isGood made = true /\ m_ticket made = t
      /\ m_resMonitor (final r) = mon'
      /\ trace r = EvFreeStaging t
                     :: (if hasUsage X t mon' then [] else [EvRemoveTicket s t])
  | None =>
      isGood made = false /\ m_ticket made = 0%N
      /\ m_resMonitor (final r) = (preAllocate X res (m_resMonitor e)).2
      /\ store (final r) = store e
      /\ trace r = []
  end.
Proof.
  intros r made. subst r made. unfold bindM. rewrite makeResourceContext_run.
  destruct (preAllocate X res (m_resMonitor e)) as [[t|] mon1]; simpl.
  - unfold destroyResourceContext, bindM, retM.
    rewrite releaseStaging_staged by reflexivity. simpl.
    destruct (hasUsage X t (freeStaging X t mon1)); simpl; by split_and!.
  - by split_and!.
Qed.

(** *** Shutting down *)


(** *** Backoff *)

Lemma wrap_int64_small z : - 2 ^ 63 <= z < 2 ^ 63 -> wrap_int64 z = z.
Proof. intros Hz. unfold wrap_int64. rewrite Z.mod_small; lia. Qed.

(** X16.  Progress resets the backoff: a call with [scheduled > 0] never
    sleeps and puts the next sleep back to 10ms.  A following call without
    progress does not sleep while at most 20ms have passed since, and
    sleeps 10ms, doubling the next sleep, once more than 20ms have. *)
Theorem backoff_resets_on_progress scheduled now now' st :
  (0 < scheduled)%nat ->
  let reset := mkBackoff now initialSleep in
  maybeWaitForAWhile scheduled now st = (false, None, reset)
  /\ (now' - now <= getBored * ticks_per_ms ->
      maybeWaitForAWhile 0 now' reset = (false, None, reset))
  /\ (getBored * ticks_per_ms < now' - now ->
      maybeWaitForAWhile 0 now' reset = (true, Some 10, mkBackoff now 20)).
Proof.
  intros Hs reset. subst reset. unfold maybeWaitForAWhile.
  apply Nat.ltb_lt in Hs. rewrite Hs. cbn [bo_last bo_sleep Nat.ltb Nat.leb].
  split_and!.
  - rewrite Z.sub_diag. reflexivity.
  - intros Hle. apply Z.leb_le in Hle. by rewrite Hle.
  - intros Hlt. apply Z.leb_gt in Hlt. by rewrite Hlt.
Qed.

(** X17.  Without progress the backoff is exponential: once more than 20ms
    have passed since the last progress, every call sleeps, the [i]-th for
    the current sleep times [2^i], as long as the doubled sleep fits the
    64-bit millisecond count; the time of the last progress is kept. *)
Theorem backoff_doubles nows st :
  0 < bo_sleep st ->
  bo_sleep st * 2 ^ Z.of_nat (length nows) < 2 ^ 63 ->
  Forall (fun now => getBored * ticks_per_ms < now - bo_last st) nows ->
  idleCalls nows st =
    (imap (fun i _ => Some (bo_sleep st * 2 ^ Z.of_nat i)) nows,
     mkBackoff (bo_last st) (bo_sleep st * 2 ^ Z.of_nat (length nows))).
Proof.
  revert st. induction nows as [|now nows IH]; intros st Hpos Hfit Hall.
  - simpl. rewrite Z.mul_1_r. by destruct st.
  - apply Forall_cons in Hall as (Hnow & Hall).
    cbn [idleCalls]. unfold maybeWaitForAWhile.
    cbn [Nat.ltb Nat.leb]. apply Z.leb_gt in Hnow. rewrite Hnow.
    cbn [length] in Hfit. rewrite Nat2Z.inj_succ, Z.pow_succ_r in Hfit by lia.
    assert (Hp : 0 < 2 ^ Z.of_nat (length nows)) by (apply Z.pow_pos_nonneg; lia).
    rewrite wrap_int64_small by nia.
    rewrite (IH (mkBackoff (bo_last st) (bo_sleep st * 2))); cbn [bo_last bo_sleep];
      [|lia|nia|done].
    cbn [length]. rewrite Nat2Z.inj_succ, Z.pow_succ_r by lia.
    f_equal; [|f_equal; lia].
    rewrite imap_cons. rewrite Z.mul_1_r. f_equal.
    apply imap_ext. intros i x _. simpl. f_equal.
    rewrite Nat2Z.inj_succ, Z.pow_succ_r by lia. lia.
Qed.


(** *** Allocation scopes *)

Lemma size_sub_add (u n : N) : (u < size_max)%N -> size_sub (size_add u n) n = u.
Proof.
  unfold size_sub, size_add. change size_max with 18446744073709551616%N.
  intros Hu.
  assert (Hq : (n mod 18446744073709551616 < 18446744073709551616)%N)
    by (by apply N.mod_lt).
  rewrite <- (N.Div0.add_mod_idemp_r u n).
  set (q := (n mod 18446744073709551616)%N) in *.
  destruct (N.lt_ge_cases (u + q) 18446744073709551616) as [Hlt|Hge].
  - rewrite (N.mod_small (u + q)) by done.
    replace (u + q + 18446744073709551616 - q)%N with (u + 1 * 18446744073709551616)%N by lia.
    rewrite N.Div0.mod_add. by apply N.mod_small.
  - assert ((u + q) mod 18446744073709551616 = u + q - 18446744073709551616)%N as ->.
    { replace (u + q)%N with ((u + q - 18446744073709551616) + 1 * 18446744073709551616)%N
        at 1 by lia.
      rewrite N.Div0.mod_add. apply N.mod_small. lia. }
    replace (u + q - 18446744073709551616 + 18446744073709551616 - q)%N with u by lia.
    by apply N.mod_small.
Qed.

Lemma commit_single rctx tag n e it :
  store e !! session rctx = Some it ->
  commit {| context := rctx; scope_res := <[ tag := n ]> ∅; valid := true |} e =
    (tt,
     set_store
       (<[ session rctx :=
             set_tickets ({[ m_ticket rctx ]} ∪ tickets it)
               (set_resUsage (<[ tag := size_add (resourceUsage it tag) n ]> (resUsage it))
                  it) ]> (store e)) e,
     []).
Proof.
  intros Hit. unfold commit. cbn [valid negb context scope_res].
  rewrite insert_empty, map_to_list_singleton. cbn [commitEach].
  unfold addUsage, notifyMemoryAllocation. run_m. do 2 f_equal. unfold set_store.
  simpl. f_equal. apply map_eq. intros k.
  destruct (decide (session rctx = k)) as [<-|Hne].
  - by rewrite !lookup_alter_eq, lookup_insert_eq, Hit.
  - by rewrite !lookup_alter_ne, lookup_insert_ne by done.
Qed.

(** X18.  An allocation that goes through and is committed credits the
    session: its usage under the tag of the context's device grows by the
    amount (in [size_t] arithmetic), the ticket is recorded with the
    session, and no other tag and no other session changes.  Deallocating
    the same amount afterwards brings the usage back to what it was. *)
Theorem commit_then_dealloc_restores_usage rctx type n e it :
  let s := session rctx in
  let tag := mkResourceTag type (m_spec rctx) in
  let r1 := (let* scope := alloc_num P rctx type n in commit scope) e in
  let r2 := dealloc P rctx type n (final r1) in
  store e !! s = Some it ->
  (resourceUsage it tag < size_max)%N ->
  (proxy_allocate P (m_ticket rctx) (<[ tag := n ]> ∅) (m_resMonitor e)).1 = true ->
  resourceUsage (sessionOf (final r1) s) tag = size_add (resourceUsage it tag) n
  /\ m_ticket rctx ∈ tickets (sessionOf (final r1) s)
  /\ (forall tag', tag' <> tag ->
        resourceUsage (sessionOf (final r1) s) tag' = resourceUsage it tag')
  /\ (forall s', s' <> s -> store (final r1) !! s' = store e !! s')
  /\ resourceUsage (sessionOf (final r2) s) tag = resourceUsage it tag
  /\ tickets (sessionOf (final r2) s) = tickets (sessionOf (final r1) s).
Proof.
  intros s tag r1 r2 Hit Hu Hok. subst r2 r1.
  unfold alloc_num, bindM, callM, retM. cbn beta.
  cbn [newOperationScope scope_res]. fold tag.
  destruct (proxy_allocate P _ _ _) as [ok mon1]. simpl in Hok. subst ok.
  cbn [fst snd].
  rewrite (commit_single rctx tag n (set_resMonitor mon1 e) it) by exact Hit.
  unfold final, dealloc, subUsage. run_m. fold s tag.
  unfold sessionOf. simpl. rewrite !lookup_alter_eq, !lookup_insert_eq. simpl.
  unfold resourceUsage. simpl. rewrite !lookup_insert_eq. simpl.
  split_and!.
  - done.
  - apply elem_of_union_l. by apply elem_of_singleton.
  - intros tag' Hne. by rewrite lookup_insert_ne.
  - intros s' Hne. by rewrite lookup_insert_ne.
  - apply size_sub_add. exact Hu.
  - done.
Qed.

(** X19.  A scope that holds no allocation commits nothing.  When the
    allocation of [alloc(type, n)] is refused, the scope is not valid and
    [commit] leaves every session as it was.  When nothing is staged under
    the tag, [alloc(type)] attempts no allocation, the scope it returns
    holds no resources, and committing such a scope changes nothing,
    whatever its validity. *)
Theorem invalid_scope_commits_nothing rctx type n e :
  let tag := mkResourceTag type (m_spec rctx) in
  ((proxy_allocate P (m_ticket rctx) (<[ tag := n ]> ∅) (m_resMonitor e)).1 = false ->
   let r := (let* scope := alloc_num P rctx type n in commit scope) e in
   valid (result (alloc_num P rctx type n e)) = false
   /\ store (final r) = store e /\ trace r = [])
  /\ (proxy_queryStaging P (m_ticket rctx) (m_resMonitor e) !! tag = None ->
      let r := alloc P rctx type e in
      scope_res (result r) = ∅ /\ final r = e /\ trace r = []
      /\ forall v,
           commit {| context := rctx; scope_res := scope_res (result r); valid := v |} e
           = (tt, e, [])).
Proof.
  intros tag. split.
  - intros Hok. unfold alloc_num, bindM, callM, retM. cbn beta.
    cbn [newOperationScope scope_res]. fold tag.
    destruct (proxy_allocate P _ _ _) as [ok mon1]. simpl in Hok. subst ok.
    by unfold commit.
  - intros Hq. unfold alloc, bindM, getM. cbn beta. cbn [fst snd]. fold tag.
    rewrite Hq. unfold result, final, trace, retM. simpl. split_and!; try done.
    intros v. unfold commit. destruct v; simpl; [|done].
    by rewrite map_to_list_empty.
Qed.

(** *** The client handle *)

(** X20.  Removing a context's session from the engine moves the session
    item out of the context: a second removal (the one the destructor of the
    context makes after [deleteSession]) requests nothing and notifies
    nobody, and neither does an insertion made afterwards. *)
Theorem removeFromEngine_is_idempotent d e :
  let r1 := removeFromEngine d e in
  item (result r1) = None
  /\ removeFromEngine (result r1) (final r1) = (result r1, final r1, [])
  /\ insertIntoEngine (result r1) (final r1) = (tt, final r1, [])
  /\ m_deletedSessions (final r1)
     = match item d with
       | Some it => {[ it ]} ∪ m_deletedSessions e
       | None => m_deletedSessions e
       end
  /\ m_sessions (final r1) = m_sessions e.
Proof.
  intros r1. subst r1. unfold removeFromEngine.
  destruct (item d) as [it|] eqn:Hd.
  - unfold bindM. rewrite deleteSession_run. unfold result, final, retM. simpl.
    unfold insertIntoEngine. simpl. by split_and!.
  - unfold result, final, retM, insertIntoEngine. simpl. rewrite Hd. by split_and!.
Qed.

End MoreProperties.

(** ** Concrete runs *)

Section SampleSort.
Import Sample.

Lemma insert_desc_perm (x : N * nat) (l : list (N * nat)) :
  Permutation (insert_desc x l) (x :: l).
Proof.
  induction l as [|y l IH]; simpl; [done|].
  destruct (y.1 <? x.1)%N; [done|].
  rewrite IH. apply perm_swap.
Qed.

Lemma sort_desc_perm (l : list (N * nat)) : Permutation (sort_desc l) l.
Proof.
  induction l as [|x l IH]; simpl; [done|].
  rewrite insert_desc_perm. by constructor.
Qed.

Lemma insert_desc_sorted (x : N * nat) (l : list (N * nat)) :
  usage_descending l -> usage_descending (insert_desc x l).
Proof.
  unfold usage_descending. induction l as [|y l IH]; intros Hl; simpl.
  - repeat constructor.
  - apply StronglySorted_inv in Hl as (Hl & Hy).
    destruct (y.1 <? x.1)%N eqn:Hlt.
    + apply N.ltb_lt in Hlt. constructor.
      * by constructor.
      * constructor; [lia|]. eapply Forall_impl; [exact Hy|].
        intros z Hz. simpl in *. lia.
    + apply N.ltb_ge in Hlt. constructor; [by apply IH|].
      rewrite (insert_desc_perm x l). by constructor.
Qed.

Lemma sort_desc_sorted (l : list (N * nat)) : usage_descending (sort_desc l).
Proof.
  induction l as [|x l IH]; simpl; [constructor|].
  by apply insert_desc_sorted.
Qed.
End SampleSort.

Section Runs.
Import Sample.

(** C1, counterexample.  Session B has no tickets and session C, the next
    candidate, has a ticket and callbacks that would release memory: the
    loop that starts at B does not behave as the loop that starts at C,
    and [doPaging] never asks C. *)
Lemma volunteer_loop_skips_later_sessions :
  pagingCandidates generous GPU0 threeSessions
    = [(900%N, 1%nat); (50%N, 2%nat); (10%N, 3%nat)]
  /\ tickets (sessionOf threeSessions 2) = ∅
  /\ tickets (sessionOf threeSessions 3) <> ∅
  /\ pagingCb (sessionOf threeSessions 3) = true
  /\ existsb (is_volunteer_of 3)
       (trace (volunteerSessions generous CPU0 [(10%N, 3%nat)] 0 threeSessions)) = true
  /\ volunteerSessions generous CPU0 [(50%N, 2%nat); (10%N, 3%nat)] 0 threeSessions
     <> volunteerSessions generous CPU0 [(10%N, 3%nat)] 0 threeSessions
  /\ existsb (is_volunteer_of 3) (trace (doPaging generous GPU0 CPU0 threeSessions))
     = false.
Proof.
  split_and!; try (vm_compute; reflexivity).
  - intros H. apply (f_equal elements) in H. vm_compute in H. discriminate.
  - intros H. apply (f_equal trace) in H. vm_compute in H. discriminate.
Qed.

(** C1, witness: the loop on the candidates after the largest consumer
    stops at B. *)
Lemma volunteer_loop_breaks_witness :
  tickets (sessionOf threeSessions 2) = ∅
  /\ volunteerSessions generous CPU0 [(50%N, 2%nat); (10%N, 3%nat)] 0 threeSessions
     = ((None, 0%N), threeSessions, []).
Proof.
  split; [vm_compute; reflexivity|].
  apply (volunteer_loop_breaks_on_empty_tickets generous CPU0 50%N 2%nat
           [(10%N, 3%nat)] 0%N threeSessions).
  vm_compute; reflexivity.
Defined.

(** C2, counterexample.  With logging off, a synchronous operation of the
    live session 1 completes and [totalExecutedOp] stays at zero. *)
Lemma done_without_logging_does_not_count :
  let o := mkOp 1 10 false true 11 in
  let e := running o oneSession in
  let r := cbs_done quiet o e in
  is_Some (store e !! 1%nat)
  /\ totalExecutedOp (sessionOf e 1) = 0%N
  /\ totalExecutedOp (sessionOf (final r) 1) = 0%N
  /\ totalExecutedOp (sessionOf (final r) 1)
     <> (totalExecutedOp (sessionOf e 1) + 1)%N.
Proof.
  split_and!; try (vm_compute; reflexivity).
  - vm_compute. eauto.
  - vm_compute. discriminate.
Qed.

(** C2, witness: with verbose logging the operation is counted. *)
Lemma done_updates_counters_witness :
  let o := mkOp 1 10 false true 11 in
  let e := running o oneSession in
  store e !! 1%nat = Some (sessionOf oneSession 1)
  /\ totalExecutedOp (sessionOf (final (cbs_done verbose o e)) 1) = 1%N
  /\ m_runningTasks (final (cbs_done verbose o e)) = 0
  /\ m_noPagingRunningTasks (final (cbs_done verbose o e)) = 0.
Proof.
  intros o e.
  assert (H : store e !! 1%nat = Some (sessionOf oneSession 1))
    by (vm_compute; reflexivity).
  split; [exact H|].
  exact (done_updates_counters verbose o e (sessionOf oneSession 1) H).
Defined.

(** C3, witness: of two sessions, A (900 bytes) heads the candidates and
    only B is asked. *)
Lemma doPaging_spares_largest_witness :
  NoDup (m_sessions (twoSessions 1000))
  /\ pagingCandidates quiet GPU0 (twoSessions 1000)
     = (900%N, 1%nat) :: [(100%N, 2%nat)]
  /\ Forall (fun ev => is_volunteer_of 1 ev = false)
            (trace (doPaging quiet GPU0 CPU0 (twoSessions 1000))).
Proof.
  assert (Hnd : NoDup (m_sessions (twoSessions 1000))).
  { apply (bool_decide_unpack _). vm_compute. exact I. }
  assert (Hc : pagingCandidates quiet GPU0 (twoSessions 1000)
               = (900%N, 1%nat) :: [(100%N, 2%nat)]) by (vm_compute; reflexivity).
  split_and!; [exact Hnd|exact Hc|].
  apply (doPaging_spares_largest quiet GPU0 CPU0 (twoSessions 1000) 900%N 1%nat
           [(100%N, 2%nat)] sort_desc_perm sort_desc_sorted Hnd Hc).
Defined.




(** C7, witness: a staged operation of a live session is accepted by an
    empty pool of capacity one and handed back by the pool once it is
    full; an operation whose context has no staging never reaches the
    pool; an operation of a session that is gone is dropped. *)
Lemma submitTask_outcomes_witness :
  let o := mkOp 1 10 false true 11 in
  let e' := final (submitTask quiet o oneSession) in
  submitTask quiet o oneSession
    = (None, set_pool (tryRun quiet o (m_pool oneSession)).2 oneSession, [])
  /\ submitTask quiet o e' = (Some o, set_pool (tryRun quiet o (m_pool e')).2 e', [])
  /\ submitTask quiet (mkOp 1 12 false false 0) oneSession
     = (Some (mkOp 1 12 false false 0), oneSession, [])
  /\ submitTask quiet (mkOp 9 13 false true 14) oneSession = (None, oneSession, []).
Proof.
  intros o e'.
  destruct (submitTask_outcomes quiet o oneSession) as (_ & _ & _ & H4).
  destruct (submitTask_outcomes quiet o e') as (_ & _ & H3 & _).
  destruct (submitTask_outcomes quiet (mkOp 1 12 false false 0) oneSession)
    as (_ & H2 & _).
  destruct (submitTask_outcomes quiet (mkOp 9 13 false true 14) oneSession)
    as (H1 & _).
  split_and!.
  - apply H4; [vm_compute; eauto|reflexivity|vm_compute; reflexivity].
  - apply H3; [vm_compute; eauto|reflexivity|vm_compute; reflexivity].
  - apply H2; [vm_compute; eauto|reflexivity].
  - apply H1. vm_compute; reflexivity.
Defined.

(** C8, witness: in the iteration after its eviction, the two queued
    operations of A are cancelled, once each, and its queues are empty. *)
Lemma forceEvicted_queue_cancelled_witness :
  let e0 := final (collectChanges afterEviction) in
  let it := sessionOf afterEviction 1 in
  let p := prepareSessions (1 <? length (m_sessions e0))%nat (m_sessions e0) 0 e0 in
  1%nat ∈ m_sessions e0
  /\ store e0 !! 1%nat = Some it
  /\ forceEvicted it = true
  /\ List.filter (is_cancel_of 1) (trace (scheduleIteration quiet afterEviction))
     = [EvCancel 1 (mkOp 1 10 false true 11); EvCancel 1 (mkOp 1 11 true true 12)]
  /\ bgQueue (sessionOf (final p) 1) = []
  /\ queue (sessionOf (final p) 1) = [].
Proof.
  intros e0 it p.
  assert (H1 : 1%nat ∈ m_sessions e0).
  { apply (bool_decide_unpack _). vm_compute. exact I. }
  assert (H2 : store e0 !! 1%nat = Some it) by (vm_compute; reflexivity).
  assert (H3 : forceEvicted it = true) by (vm_compute; reflexivity).
  destruct (forceEvicted_queue_cancelled quiet afterEviction 1%nat it H1 H2 H3)
    as (Hc & _ & Hb & Hq).
  split_and!; [exact H1|exact H2|exact H3|exact Hc|exact Hb|exact Hq].
Defined.

(** C9, witness: the evicted session A, whose [protectOOM] was cleared by
    [doPaging], has it set again by the next preparation loop, two
    sessions being live, and still has it at the paging check. *)
Lemma prepare_assigns_protectOOM_witness :
  let e0 := final (collectChanges afterEviction) in
  let it := sessionOf afterEviction 1 in
  let p := prepareSessions (1 <? length (m_sessions e0))%nat (m_sessions e0) 0 e0 in
  1%nat ∈ m_sessions e0
  /\ store e0 !! 1%nat = Some it
  /\ protectOOM it = false
  /\ forceEvicted it = true
  /\ protectOOM (sessionOf (final p) 1) = true
  /\ protectOOM (sessionOf (final (iterationHead quiet afterEviction)) 1)
     = (1 <? length (m_sessions e0))%nat.
Proof.
  intros e0 it p.
  assert (H1 : 1%nat ∈ m_sessions e0).
  { apply (bool_decide_unpack _). vm_compute. exact I. }
  assert (H2 : store e0 !! 1%nat = Some it) by (vm_compute; reflexivity).
  assert (H3 : protectOOM it = false) by (vm_compute; reflexivity).
  assert (H4 : forceEvicted it = true) by (vm_compute; reflexivity).
  destruct (prepare_assigns_protectOOM quiet afterEviction 1%nat it H1 H2)
    as (_ & _ & H & _ & _ & Hend & _).
  split_and!; [exact H1|exact H2|exact H3|exact H4| |].
  - apply H; [exact H3|exact H4|vm_compute; lia].
  - apply Hend; intros; reflexivity.
Defined.
End Runs.

(** ** More concrete runs *)

Section MoreRuns.
Import Sample.

(** X1, witness: two tasks enqueued on session 1, which already holds one
    operation in its front queue. *)
Lemma enqueue_is_fifo_witness :
  store oneSession !! 1%nat = Some (sessionOf oneSession 1)
  /\ queue (sessionOf (final (enqueueAll 1 (twoTasks 1) oneSession)) 1)
     = [mkOp 1 10 false true 11; mkOp 1 31 false true 41; mkOp 1 32 true true 42]
  /\ trace (enqueueAll 1 (twoTasks 1) oneSession) = [EvNotify; EvNotify]
  /\ bgQueue (sessionOf (final (enqueueAll 1 (twoTasks 1) oneSession)) 1)
     = bgQueue (sessionOf oneSession 1).
Proof.
  assert (H : store oneSession !! 1%nat = Some (sessionOf oneSession 1))
    by (vm_compute; reflexivity).
  destruct (enqueue_is_fifo 1%nat (twoTasks 1) oneSession _ H)
    as (Hq & _ & _ & _ & _ & Ht & Hbg & _).
  split_and!; [exact H|exact Hq|exact Ht|exact Hbg].
Defined.

(** X2, witness: session 9 does not exist. *)
Lemma enqueue_on_expired_session_is_dropped_witness :
  store oneSession !! 9%nat = None
  /\ enqueueAll 9 (twoTasks 9) oneSession = (tt, oneSession, []).
Proof.
  assert (H : store oneSession !! 9%nat = None) by (vm_compute; reflexivity).
  split; [exact H|].
  exact (enqueue_on_expired_session_is_dropped 9%nat (twoTasks 9) oneSession H).
Defined.

(** X3, witness: session 2 holds one operation; two more are enqueued and
    the three reach the back queue in order. *)
Lemma enqueued_tasks_reach_back_queue_in_order_witness :
  let e := twoSessions 1000 in
  let r := (enqueueAll 2 (twoTasks 2) ;; prepareSession true 2) e in
  store e !! 2%nat = Some (sessionOf e 2)
  /\ forceEvicted (sessionOf e 2) = false
  /\ bgQueue (sessionOf (final r) 2)
     = [mkOp 2 20 false true 21; mkOp 2 31 false true 41; mkOp 2 32 true true 42]
  /\ result r = 3%nat.
Proof.
  intros e r.
  assert (H1 : store e !! 2%nat = Some (sessionOf e 2)) by (vm_compute; reflexivity).
  assert (H2 : forceEvicted (sessionOf e 2) = false) by (vm_compute; reflexivity).
  destruct (enqueued_tasks_reach_back_queue_in_order true 2%nat (twoTasks 2) e _ H1 H2)
    as (Hb & _ & Hr & _).
  split_and!; [exact H1|exact H2|exact Hb|exact Hr].
Defined.

(** X4, witness: three operations wait in the two sessions. *)
Lemma totalRemainingCount_counts_back_queues_witness :
  let e0 := final (collectChanges (twoSessions 1000)) in
  let p := prepareSessions (1 <? length (m_sessions e0))%nat (m_sessions e0) 0 e0 in
  NoDup (m_sessions e0)
  /\ (forall s, s ∈ m_sessions e0 -> is_Some (store e0 !! s))
  /\ result p = pendingCount (final p) (m_sessions e0)
  /\ pendingCount (final p) (m_sessions e0) = 3%nat.
Proof.
  intros e0 p.
  assert (Hm : m_sessions e0 = [1; 2]%nat) by (vm_compute; reflexivity).
  assert (H1 : NoDup (m_sessions e0)).
  { apply (bool_decide_unpack _). vm_compute. exact I. }
  assert (H2 : forall s, s ∈ m_sessions e0 -> is_Some (store e0 !! s)).
  { intros s Hs. rewrite Hm in Hs.
    apply elem_of_cons in Hs as [->|Hs]; [vm_compute; eauto|].
    apply list_elem_of_singleton in Hs as ->. vm_compute; eauto. }
  destruct (totalRemainingCount_counts_back_queues (twoSessions 1000) H1 H2) as (Hc & _).
  split_and!; [exact H1|exact H2|exact Hc|vm_compute; reflexivity].
Defined.

(** X8, witness: session 3 is pending while sessions 1 and 2 are live. *)
Lemma live_sessions_stay_distinct_witness :
  let e := final (insertSession 3 (twoSessions 1000)) in
  NoDup (m_sessions e) /\ NoDup (m_newSessions e)
  /\ (forall s, s ∈ m_newSessions e -> s ∉ m_sessions e)
  /\ NoDup (m_sessions (final (collectChanges e)))
  /\ m_sessions (final (collectChanges e)) = [1; 2; 3]%nat.
Proof.
  intros e.
  assert (H1 : NoDup (m_sessions e)).
  { apply (bool_decide_unpack _). vm_compute. exact I. }
  assert (H2 : NoDup (m_newSessions e)).
  { apply (bool_decide_unpack _). vm_compute. exact I. }
  assert (H3 : forall s, s ∈ m_newSessions e -> s ∉ m_sessions e).
  { intros s Hs. change (m_newSessions e) with [3%nat] in Hs.
    apply list_elem_of_singleton in Hs as ->.
    apply (bool_decide_unpack _). vm_compute. exact I. }
  split_and!; [exact H1|exact H2|exact H3| |vm_compute; reflexivity].
  exact (live_sessions_stay_distinct e H1 H2 H3).
Defined.

(** X10, witness: the session protects against OOM and the task is put back
    behind the operation already queued. *)
Lemma started_task_memFailure_accounting_witness :
  let o := mkOp 1 50 false true 51 in
  let r := (poolClosure o ;; cbs_memFailure quiet o) oneSession in
  store oneSession !! 1%nat = Some (sessionOf oneSession 1)
  /\ protectOOM (sessionOf oneSession 1) = true
  /\ result r = true
  /\ m_runningTasks (final r) = 0
  /\ m_noPagingRunningTasks (final r) = 0.
Proof.
  intros o r.
  assert (H : store oneSession !! 1%nat = Some (sessionOf oneSession 1))
    by (vm_compute; reflexivity).
  assert (Hp : protectOOM (sessionOf oneSession 1) = true) by (vm_compute; reflexivity).
  pose proof (started_task_memFailure_accounting quiet o oneSession _ H) as W.
  cbv zeta in W. rewrite Hp in W. destruct W as (W1 & W2 & W3 & _).
  split_and!; [exact H|exact Hp|exact W1|exact W2|exact W3].
Defined.

(** X11, witness: a single live session. *)
Lemma doPaging_gives_up_untouched_witness :
  (length (m_sessions oneSession) <= 1)%nat
  /\ doPaging quiet GPU0 CPU0 oneSession = (false, oneSession, []).
Proof.
  assert (H : (length (m_sessions oneSession) <= 1)%nat) by (vm_compute; lia).
  split; [exact H|].
  exact (doPaging_gives_up_untouched quiet GPU0 CPU0 oneSession sort_desc_perm
           (or_introl H)).
Defined.

(** X13, witness: the call on two stalled sessions ends with the eviction
    of session 1 and returns true. *)
Lemma doPaging_result_and_eviction_witness :
  EvForceEvicted 1 ∈ trace (doPaging quiet GPU0 CPU0 (twoSessions 1000))
  /\ result (doPaging quiet GPU0 CPU0 (twoSessions 1000)) = true.
Proof.
  assert (H : EvForceEvicted 1 ∈ trace (doPaging quiet GPU0 CPU0 (twoSessions 1000))).
  { apply (bool_decide_unpack _). vm_compute. exact I. }
  destruct (doPaging_result_and_eviction quiet GPU0 CPU0 (twoSessions 1000)) as (_ & W).
  destruct (W 1%nat H) as (W1 & _).
  split; [exact H|exact W1].
Defined.


(** X16, witness: progress at time 0, then a call 30ms later. *)
Lemma backoff_resets_on_progress_witness :
  (0 < 1)%nat
  /\ maybeWaitForAWhile 1 0 (mkBackoff (-5) 80) = (false, None, mkBackoff 0 10)
  /\ maybeWaitForAWhile 0 30000000 (mkBackoff 0 10) = (true, Some 10, mkBackoff 0 20).
Proof.
  assert (H : (0 < 1)%nat) by lia.
  destruct (backoff_resets_on_progress 1 0 30000000 (mkBackoff (-5) 80) H)
    as (W1 & _ & W2).
  split_and!; [exact H|exact W1|].
  apply W2. vm_compute. reflexivity.
Defined.

(** X17, witness: three idle calls sleep 10, 20 and 40 milliseconds. *)
Lemma backoff_doubles_witness :
  idleCalls [30000000; 40000000; 100000000] (backoffInit 0)
  = ([Some 10; Some 20; Some 40], mkBackoff 0 80).
Proof.
  apply (backoff_doubles [30000000; 40000000; 100000000] (backoffInit 0)).
  - vm_compute. reflexivity.
  - vm_compute. reflexivity.
  - repeat constructor; vm_compute; reflexivity.
Defined.

(** X18, witness: 40 of the 100 staged bytes are allocated, committed and
    deallocated again; the session's usage goes from 900 to 940 and back. *)
Lemma commit_then_dealloc_restores_usage_witness :
  let r1 := (let* scope := alloc_num proxy stagedContext MEMORY 40 in commit scope)
              stagedEngine in
  let r2 := dealloc proxy stagedContext MEMORY 40 (final r1) in
  resourceUsage (sessionOf stagedEngine 1) gpuMem = 900%N
  /\ resourceUsage (sessionOf (final r1) 1) gpuMem = size_add 900 40
  /\ resourceUsage (sessionOf (final r2) 1) gpuMem = 900%N.
Proof.
  intros r1 r2.
  assert (H1 : store stagedEngine !! session stagedContext
               = Some (sessionOf stagedEngine 1)) by (vm_compute; reflexivity).
  assert (H2 : (resourceUsage (sessionOf stagedEngine 1)
                  (mkResourceTag MEMORY (m_spec stagedContext)) < size_max)%N)
    by (vm_compute; reflexivity).
  assert (H3 : (proxy_allocate proxy (m_ticket stagedContext)
                  (<[ mkResourceTag MEMORY (m_spec stagedContext) := 40%N ]> ∅)
                  (m_resMonitor stagedEngine)).1 = true) by (vm_compute; reflexivity).
  destruct (commit_then_dealloc_restores_usage proxy stagedContext MEMORY 40%N
              stagedEngine _ H1 H2 H3) as (W1 & _ & _ & _ & W2 & _).
  split_and!; [vm_compute; reflexivity|exact W1|exact W2].
Defined.

(** X5, witness: session 3 is pending while sessions 1 and 2 are live. *)
Lemma changeset_delimits_added_sessions_witness :
  let e := final (insertSession 3 (twoSessions 1000)) in
  let r := collectChanges e in
  m_newSessions e <> []
  /\ take (addedSessionBegin (result r)) (m_sessions (final r)) = [1; 2]%nat
  /\ drop (addedSessionBegin (result r)) (m_sessions (final r)) = [3%nat].
Proof.
  intros e r.
  assert (H : m_newSessions e <> []) by (vm_compute; discriminate).
  destruct (changeset_delimits_added_sessions e) as (_ & _ & _ & _ & _ & _ & W).
  destruct (W H) as (W1 & W2 & _).
  split_and!; [exact H|exact W1|exact W2].
Defined.

(** X19, witness: an allocation beyond the staged 100 bytes is refused, and
    nothing is staged for compute; neither scope commits anything. *)
Lemma invalid_scope_commits_nothing_witness :
  store (final ((let* scope := alloc_num proxy stagedContext MEMORY 400 in commit scope)
                  stagedEngine)) = store stagedEngine
  /\ final (alloc proxy stagedContext COMPUTE stagedEngine) = stagedEngine
  /\ (let* scope := alloc proxy stagedContext COMPUTE in commit scope) stagedEngine
     = (tt, stagedEngine, []).
Proof.
  destruct (invalid_scope_commits_nothing proxy stagedContext MEMORY 400%N stagedEngine)
    as (W1 & _).
  destruct (invalid_scope_commits_nothing proxy stagedContext COMPUTE 0%N stagedEngine)
    as (_ & W2).
  assert (H1 : (proxy_allocate proxy (m_ticket stagedContext)
                  (<[ mkResourceTag MEMORY (m_spec stagedContext) := 400%N ]> ∅)
                  (m_resMonitor stagedEngine)).1 = false) by (vm_compute; reflexivity).
  assert (H2 : proxy_queryStaging proxy (m_ticket stagedContext) (m_resMonitor stagedEngine)
                 !! mkResourceTag COMPUTE (m_spec stagedContext) = None)
    by (vm_compute; reflexivity).
  destruct (W1 H1) as (_ & W1' & _). destruct (W2 H2) as (_ & W2' & _ & _).
  split_and!; [exact W1'|exact W2'|vm_compute; reflexivity].
Defined.
End MoreRuns.
